(** * The Mycelium benchmark report builder ([scripts/summarize.py])

    A shallow embedding of the script and the properties its specification
    states about it.

    The script is dynamically typed Python over JSON data, so the embedding
    has four layers:

    - [exc]: Python exceptions as an error monad, with [try_except] for the
      script's [try: ... except <class>:] blocks;
    - [value]: the values [json.load] produces, with the interpreter
      operations the script applies to them ([float], [int], [+], [/],
      [str], format specifications, [dict.get], subscripting, iteration);
    - the script's own functions ([get], [fmt_cost], [fmt_time],
      [fmt_tokens], [safe_avg]) and its top-level code (metadata load,
      result collection, table and transcript rendering, chart averages),
      under the names the script gives them;
    - the run directory as a finite map from paths to files, the listing
      [glob.glob] returns for it, and the write of [summary.md] as what it
      does in the environment of the run.

    Conventions of the interpreter model.  Text is ASCII: [str.title],
    [str.strip], [float] and [int] on strings follow CPython on ASCII
    characters, and bytes above 127 are taken as printable characters that
    are neither letters, digits nor white space.  Floats are IEEE binary64
    ([SpecFloat] with precision 53); integers are unbounded and are printed
    without a digit limit; [sum] adds from the left. *)

From Stdlib Require Import ZArith QArith String Ascii List Lia.
From Stdlib Require Import Floats.SpecFloat.
From stdpp Require Import base option list gmap strings sorting pretty.

(** ** Exceptions *)

Inductive exn : Set :=
| TypeError | ValueError | KeyError | AttributeError
| OverflowError | ZeroDivisionError | OSError | ImportError
| UnicodeEncodeError.

Inductive exc (A : Type) : Type :=
| Ok (a : A)
| Raise (e : exn).
Arguments Ok {A} a.
Arguments Raise {A} e.

Definition bind {A B : Type} (m : exc A) (k : A → exc B) : exc B :=
  match m with
  | Ok a => k a
  | Raise e => Raise e
  end.

Notation "'let*' x := m 'in' k" := (bind m (fun x => k))
  (at level 10, x pattern, m at level 100, k at level 200).

(** [try: body except <class>: handler]; [catches] says which exceptions
    the class covers. *)
Definition try_except {A : Type} (body : exc A) (catches : exn → bool)
    (handler : exc A) : exc A :=
  match body with
  | Ok a => Ok a
  | Raise e => if catches e then handler else Raise e
  end.

(** Every exception of the model derives from [Exception]. *)
Definition Exception (e : exn) : bool := true.

Definition is_ImportError (e : exn) : bool :=
  match e with
  | ImportError => true
  | _ => false
  end.

(** [for x in l: body], threading the loop's variables as [acc]. *)
Fixpoint for_each {A S : Type} (l : list A) (body : S → A → exc S) (acc : S)
    : exc S :=
  match l with
  | [] => Ok acc
  | x :: l' => let* acc' := body acc x in for_each l' body acc'
  end.

(** A list comprehension whose element expression may raise. *)
Fixpoint map_exc {A B : Type} (f : A → exc B) (l : list A) : exc (list B) :=
  match l with
  | [] => Ok []
  | x :: l' => let* y := f x in let* ys := map_exc f l' in Ok (y :: ys)
  end.

(** ** Text *)

Module Text.

Definition chars : string → list ascii := list_ascii_of_string.
Definition of_chars : list ascii → string := string_of_list_ascii.

Definition code (c : ascii) : N := N_of_ascii c.

Definition in_range (lo hi : N) (c : ascii) : bool :=
  ((lo <=? code c)%N && (code c <=? hi)%N)%bool.

Definition is_digit : ascii → bool := in_range 48 57.
Definition is_upper : ascii → bool := in_range 65 90.
Definition is_lower : ascii → bool := in_range 97 122.
Definition is_alpha (c : ascii) : bool := is_upper c || is_lower c.

Definition digit_val (c : ascii) : Z := Z.of_N (code c) - 48.

Definition to_upper (c : ascii) : ascii :=
  if is_lower c then ascii_of_N (code c - 32) else c.
Definition to_lower (c : ascii) : ascii :=
  if is_upper c then ascii_of_N (code c + 32) else c.

(** C [isspace], the white space [float] and [int] skip. *)
Definition is_c_space (c : ascii) : bool :=
  in_range 9 13 c || (code c =? 32)%N.

(** [str.isspace] on ASCII, the white space [str.strip] removes. *)
Definition is_str_space (c : ascii) : bool :=
  is_c_space c || in_range 28 31 c.

Fixpoint drop_while (sp : ascii → bool) (l : list ascii) : list ascii :=
  match l with
  | c :: l' => if sp c then drop_while sp l' else l
  | [] => []
  end.
Definition strip_with (sp : ascii → bool) (l : list ascii) : list ascii :=
  reverse (drop_while sp (reverse (drop_while sp l))).

(** [s.strip()] *)
Definition strip (s : string) : string :=
  of_chars (strip_with is_str_space (chars s)).

(** [s.title()]: a letter is upper-cased when it follows a character that
    is not a letter, and lower-cased otherwise. *)
Fixpoint title_go (prev_cased : bool) (l : list ascii) : list ascii :=
  match l with
  | [] => []
  | c :: l' =>
      (if prev_cased then to_lower c else to_upper c)
        :: title_go (is_alpha c) l'
  end.
Definition title (s : string) : string := of_chars (title_go false (chars s)).

(** [s.replace(old, new)]: every occurrence, left to right, without
    overlap. *)
Fixpoint replace_go (old new : string) (skip : nat) (s : string) : string :=
  match s with
  | "" => match old with "" => new | _ => "" end
  | String c s' =>
      match skip with
      | S k => replace_go old new k s'
      | O =>
          if String.prefix old s then
            match String.length old with
            | O => new +:+ String c (replace_go old new 0 s')
            | S k => new +:+ replace_go old new k s'
            end
          else String c (replace_go old new 0 s')
      end
  end.
Definition replace (old new s : string) : string := replace_go old new 0 s.

Definition starts_with (pre s : string) : bool := String.prefix pre s.
Fixpoint ends_with (suf s : string) : bool :=
  String.eqb suf s ||
    match s with
    | "" => false
    | String _ s' => ends_with suf s'
    end.

Fixpoint has_char (c : ascii) (s : string) : bool :=
  match s with
  | "" => false
  | String a s' => if Ascii.eqb a c then true else has_char c s'
  end.

Fixpoint strip_prefix (pre s : string) : option string :=
  match pre, s with
  | "", _ => Some s
  | String a pre', String b s' =>
      if Ascii.eqb a b then strip_prefix pre' s' else None
  | String _ _, "" => None
  end.

(** [sep.join(l)] *)
Fixpoint join (sep : string) (l : list string) : string :=
  match l with
  | [] => ""
  | [s] => s
  | s :: l' => s +:+ sep +:+ join sep l'
  end.

Fixpoint repeat_char (c : ascii) (n : nat) : string :=
  match n with
  | O => ""
  | S n' => String c (repeat_char c n')
  end.

(** Pad with zeros on the left up to [width] characters. *)
Definition zero_pad (width : nat) (s : string) : string :=
  repeat_char "0" (width - String.length s) +:+ s.

(** Decimal digits in groups of three, as the [,] format option
    writes them. *)
Fixpoint group3_rev (rev_digits : list ascii) : list ascii :=
  match rev_digits with
  | a :: b :: c :: rest =>
      match rest with
      | [] => [a; b; c]
      | _ :: _ => a :: b :: c :: ","%char :: group3_rev rest
      end
  | short => short
  end.
Definition group3 (digits : string) : string :=
  of_chars (reverse (group3_rev (reverse (chars digits)))).

End Text.

(** ** Paths ([os.path]) *)

Module Path.

(** [os.path.join(dir, name)] for a relative [name]. *)
Definition dir_prefix (dir : string) : string :=
  match dir with
  | "" => ""
  | _ => if Text.ends_with "/" dir then dir else dir +:+ "/"
  end.
Definition join (dir name : string) : string := dir_prefix dir +:+ name.

(** [os.path.basename(p)]: what follows the last slash. *)
Fixpoint basename (p : string) : string :=
  match p with
  | "" => ""
  | String c p' =>
      if Text.has_char "/" p' then basename p'
      else if Ascii.eqb c "/" then p' else p
  end.

End Path.

(** ** Floats ([float], IEEE binary64) *)

Module F64.

Definition prec : Z := 53.
Definition emax : Z := 1024.

Definition add : spec_float → spec_float → spec_float := SFadd prec emax.
Definition div : spec_float → spec_float → spec_float := SFdiv prec emax.

(** The float nearest to an integer (infinite when out of range). *)
Definition of_Z (n : Z) : spec_float := binary_normalize prec emax n 0 false.

(** The float nearest to [n / d], with sign [neg]. *)
Definition of_ratio (neg : bool) (n d : positive) : spec_float :=
  let '(q, e, l) := SFdiv_core_binary prec emax (Zpos n) 0 (Zpos d) 0 in
  binary_round_aux prec emax neg q e l.

(** The float nearest to [m * 10 ^ e], with sign [neg]. *)
Definition of_decimal (neg : bool) (m : Z) (e : Z) : spec_float :=
  match m with
  | Zpos p =>
      match e with
      | Zneg k => of_ratio neg p (10 ^ k)%positive
      | _ => binary_normalize prec emax (cond_Zopp neg (m * 10 ^ e)) 0 neg
      end
  | _ => S754_zero neg
  end.

(** Truncation toward zero, for [int(x)]. *)
Definition trunc (x : spec_float) : option Z :=
  match x with
  | S754_zero _ => Some 0%Z
  | S754_finite s m e =>
      Some (cond_Zopp s
              match e with
              | Zneg k => (Zpos m / 2 ^ Zpos k)%Z
              | _ => (Zpos m * 2 ^ e)%Z
              end)
  | S754_infinity _ | S754_nan => None
  end.

(** *** The [.Nf] format: [N] digits after the point, correctly rounded *)

Definition round_half_even (n d : Z) : Z :=
  let q := (n / d)%Z in
  match (2 * (n mod d) ?= d)%Z with
  | Lt => q
  | Gt => (q + 1)%Z
  | Eq => if Z.even q then q else (q + 1)%Z
  end.

(** [|x| * 10 ^ p] for [|x| = m * 2 ^ e], rounded to an integer. *)
Definition scaled (p : nat) (m : positive) (e : Z) : Z :=
  match e with
  | Zneg k => round_half_even (Zpos m * 10 ^ Z.of_nat p) (2 ^ Zpos k)
  | _ => (Zpos m * 2 ^ e * 10 ^ Z.of_nat p)%Z
  end.

Definition sign_str (neg : bool) : string := if neg then "-" else "".

Definition fixed_str (p : nat) (n : Z) : string :=
  let ip := pretty (n / 10 ^ Z.of_nat p)%Z in
  match p with
  | O => ip
  | S _ => ip +:+ "." +:+ Text.zero_pad p (pretty (n mod 10 ^ Z.of_nat p)%Z)
  end.

Definition format_f (p : nat) (x : spec_float) : string :=
  match x with
  | S754_nan => "nan"
  | S754_infinity s => sign_str s +:+ "inf"
  | S754_zero s => sign_str s +:+ fixed_str p 0
  | S754_finite s m e => sign_str s +:+ fixed_str p (scaled p m e)
  end.

(** *** [repr]: the shortest decimal that reads back as the same float *)

(** Non-negative rationals as numerator and positive denominator. *)
Definition pow2 (e : Z) : Z * Z :=
  match e with
  | Zneg k => (1, 2 ^ Zpos k)%Z
  | _ => (2 ^ e, 1)%Z
  end.
Definition pow10 (e : Z) : Z * Z :=
  match e with
  | Zneg k => (1, 10 ^ Zpos k)%Z
  | _ => (10 ^ e, 1)%Z
  end.
Definition qmul (a b : Z * Z) : Z * Z := (a.1 * b.1, a.2 * b.2)%Z.
Definition qdiv (a b : Z * Z) : Z * Z := (a.1 * b.2, a.2 * b.1)%Z.
Definition qadd (a b : Z * Z) : Z * Z := (a.1 * b.2 + b.1 * a.2, a.2 * b.2)%Z.
Definition qsub (a b : Z * Z) : Z * Z := (a.1 * b.2 - b.1 * a.2, a.2 * b.2)%Z.
Definition qleb (a b : Z * Z) : bool := (a.1 * b.2 <=? b.1 * a.2)%Z.
Definition qltb (a b : Z * Z) : bool := (a.1 * b.2 <? b.1 * a.2)%Z.
Definition qfloor (a : Z * Z) : Z := (a.1 / a.2)%Z.

Definition exact (m : positive) (e : Z) : Z * Z := qmul (Zpos m, 1%Z) (pow2 e).

(** The reals that round to [m * 2 ^ e]: between the midpoints to the
    neighbouring floats, the midpoints included when [m] is even. *)
Definition round_interval (m : positive) (e : Z) : (Z * Z) * (Z * Z) * bool :=
  let v := exact m e in
  let below :=
    if ((Zpos m =? 2 ^ (prec - 1)) && (emin prec emax <? e))%Z
    then pow2 (e - 2) else pow2 (e - 1) in
  (qsub v below, qadd v (pow2 (e - 1)), Z.even (Zpos m)).

Fixpoint climb (fuel : nat) (v : Z * Z) (k : Z) : Z :=
  match fuel with
  | O => k
  | S fuel' => if qleb (pow10 (k + 1)) v then climb fuel' v (k + 1)%Z else k
  end.

(** The largest [k] with [10 ^ k <= m * 2 ^ e]. *)
Definition magnitude (m : positive) (e : Z) : Z :=
  let nb := (Zpos (digits2_pos m) + e)%Z in
  climb 6 (exact m e) ((nb - 1) * 30103 / 100000 - 2)%Z.

(** Digits [d] and exponent [x] of the shortest decimal [d * 10 ^ x] in
    the rounding interval, the nearest one when two are as short; tried
    with [n], [n + 1], ... significant digits. *)
Fixpoint shortest_go (fuel : nat) (n : Z) (m : positive) (e k : Z) : Z * Z :=
  let v := exact m e in
  let '(lo, hi, incl) := round_interval m e in
  let x := (k - n + 1)%Z in
  let d_lo := qfloor (qdiv v (pow10 x)) in
  let d_hi := (d_lo + 1)%Z in
  let dec (d : Z) : Z * Z := qmul (d, 1%Z) (pow10 x) in
  let inside (d : Z) : bool :=
    if incl then qleb lo (dec d) && qleb (dec d) hi
    else qltb lo (dec d) && qltb (dec d) hi in
  let nearest :=
    if qleb (qsub v (dec d_lo)) (qsub (dec d_hi) v) then d_lo else d_hi in
  match inside d_lo, inside d_hi, fuel with
  | true, true, _ => (nearest, x)
  | true, false, _ => (d_lo, x)
  | false, true, _ => (d_hi, x)
  | false, false, S fuel' => shortest_go fuel' (n + 1) m e k
  | false, false, O => (nearest, x)
  end.

Fixpoint strip_zeros (fuel : nat) (d x : Z) : Z * Z :=
  match fuel with
  | O => (d, x)
  | S fuel' =>
      if ((d mod 10 =? 0) && negb (d =? 0))%Z
      then strip_zeros fuel' (d / 10)%Z (x + 1)%Z else (d, x)
  end.

Definition shortest (m : positive) (e : Z) : Z * Z :=
  let '(d, x) := shortest_go 16 1 m e (magnitude m e) in
  strip_zeros 20 d x.

(** Layout of [repr]: exponent notation when the decimal point would be
    more than 16 digits to the right of the first digit or more than 3
    zeros to its left. *)
Definition repr_finite (m : positive) (e : Z) : string :=
  let '(d, x) := shortest m e in
  let ds := pretty d in
  let nd := Z.of_nat (String.length ds) in
  let decpt := (nd + x)%Z in
  if ((decpt <=? -4) || (16 <? decpt))%Z then
    let mant :=
      match ds with
      | String c "" => ds
      | String c rest => String c ("." +:+ rest)
      | "" => ""
      end in
    mant +:+ "e" +:+ (if (decpt - 1 <? 0)%Z then "-" else "+")
         +:+ Text.zero_pad 2 (pretty (Z.abs (decpt - 1)))
  else if (decpt <=? 0)%Z then
    "0." +:+ Text.repeat_char "0" (Z.to_nat (- decpt)) +:+ ds
  else if (decpt <? nd)%Z then
    String.substring 0 (Z.to_nat decpt) ds +:+ "."
      +:+ String.substring (Z.to_nat decpt) (Z.to_nat (nd - decpt)) ds
  else ds +:+ Text.repeat_char "0" (Z.to_nat (decpt - nd)) +:+ ".0".

Definition repr_abs (x : spec_float) : string :=
  match x with
  | S754_nan => "nan"
  | S754_infinity _ => "inf"
  | S754_zero _ => "0.0"
  | S754_finite _ m e => repr_finite m e
  end.

Definition is_neg (x : spec_float) : bool :=
  match x with
  | S754_zero s | S754_infinity s | S754_finite s _ _ => s
  | S754_nan => false
  end.

Definition repr (x : spec_float) : string := sign_str (is_neg x) +:+ repr_abs x.

(** The [,] format of a float: [repr] with the digits before the point
    grouped. *)
Fixpoint leading_digits (s : string) : string * string :=
  match s with
  | String c s' =>
      if Text.is_digit c
      then let '(ds, rest) := leading_digits s' in (String c ds, rest)
      else ("", s)
  | "" => ("", "")
  end.
Definition repr_grouped (x : spec_float) : string :=
  let '(ds, rest) := leading_digits (repr_abs x) in
  sign_str (is_neg x) +:+ Text.group3 ds +:+ rest.

End F64.

(** ** Values

    What [json.load] returns: [None], booleans, integers, floats, strings,
    lists, and dictionaries with string keys (kept as the list of their
    items, looked up by key from the front). *)

#[local] Set Warnings "-register-all".

Inductive value : Type :=
| VNone
| VBool (b : bool)
| VInt (n : Z)
| VFloat (x : spec_float)
| VStr (s : string)
| VList (l : list value)
| VDict (items : list (string * value)).

(** ** Reading numbers from text *)

Module Parse.

(** A run of decimal digits: its value after [acc], how many there were,
    and the rest. *)
Fixpoint digits (l : list ascii) (acc : Z) (count : nat)
    : Z * nat * list ascii :=
  match l with
  | c :: l' =>
      if Text.is_digit c
      then digits l' (10 * acc + Text.digit_val c)%Z (S count)
      else (acc, count, l)
  | [] => (acc, count, [])
  end.

Definition sign (l : list ascii) : bool * list ascii :=
  match l with
  | "-"%char :: l' => (true, l')
  | "+"%char :: l' => (false, l')
  | _ => (false, l)
  end.

(** Underscores may stand between two digits only; they are dropped. *)
Fixpoint drop_underscores (prev : option ascii) (l : list ascii)
    : option (list ascii) :=
  match l with
  | [] =>
      match prev with
      | Some "_"%char => None
      | _ => Some []
      end
  | c :: l' =>
      if Ascii.eqb c "_" then
        match prev with
        | Some p => if Text.is_digit p then drop_underscores (Some c) l' else None
        | None => None
        end
      else
        match prev with
        | Some "_"%char =>
            if Text.is_digit c
            then cons c <$> drop_underscores (Some c) l' else None
        | _ => cons c <$> drop_underscores (Some c) l'
        end
  end.

Definition lower (l : list ascii) : string :=
  Text.of_chars (map Text.to_lower l).

(** [float(s)] for a string: white space around, a sign, then [inf],
    [infinity], [nan] in any case, or digits with an optional point and an
    optional exponent; [None] is [ValueError]. *)
Definition float_of_chars (l : list ascii) : option spec_float :=
  let '(neg, l1) := sign l in
  if String.eqb (lower l1) "inf" || String.eqb (lower l1) "infinity"
  then Some (S754_infinity neg)
  else if String.eqb (lower l1) "nan" then Some S754_nan
  else
    let '(ip, ni, l2) := digits l1 0 0 in
    let '(m, nf, l3) :=
      match l2 with
      | "."%char :: l2' => digits l2' ip 0
      | _ => (ip, O, l2)
      end in
    match (ni + nf)%nat with
    | O => None
    | S _ =>
        match l3 with
        | [] => Some (F64.of_decimal neg m (- Z.of_nat nf))
        | c :: l4 =>
            if Ascii.eqb c "e" || Ascii.eqb c "E" then
              let '(eneg, l5) := sign l4 in
              match digits l5 0 0 with
              | (ex, S _, []) =>
                  Some (F64.of_decimal neg m (cond_Zopp eneg ex - Z.of_nat nf))
              | _ => None
              end
            else None
        end
    end.

Definition float_of_string (s : string) : option spec_float :=
  l ← drop_underscores None (Text.strip_with Text.is_c_space (Text.chars s));
  float_of_chars l.

(** [int(s)] for a string, base ten; [None] is [ValueError]. *)
Definition int_of_string (s : string) : option Z :=
  l ← drop_underscores None (Text.strip_with Text.is_c_space (Text.chars s));
  let '(neg, l1) := sign l in
  match digits l1 0 0 with
  | (n, S _, []) => Some (cond_Zopp neg n)
  | _ => None
  end.

End Parse.

(** ** Interpreter operations on values *)

Module Py.

(** [items[k]] of a dictionary's items, the first binding of [k]. *)
Fixpoint lookup_key (k : string) (items : list (string * value))
    : option value :=
  match items with
  | [] => None
  | (k', v) :: items' => if String.eqb k k' then Some v else lookup_key k items'
  end.

(** [d.get(k, default)]: a method of dictionaries only. *)
Definition dict_get (d : value) (k : string) (dflt : value) : exc value :=
  match d with
  | VDict items => Ok (default dflt (lookup_key k items))
  | _ => Raise AttributeError
  end.

(** [d[k]] for a string [k]. *)
Definition getitem (d : value) (k : string) : exc value :=
  match d with
  | VDict items =>
      match lookup_key k items with
      | Some v => Ok v
      | None => Raise KeyError
      end
  | _ => Raise TypeError
  end.

(** [for x in v]: the elements of a list, the characters of a string, the
    keys of a dictionary. *)
Definition iter (v : value) : exc (list value) :=
  match v with
  | VList l => Ok l
  | VStr s => Ok (map (λ c, VStr (String c "")) (Text.chars s))
  | VDict items => Ok (map (λ kv, VStr kv.1) items)
  | VNone | VBool _ | VInt _ | VFloat _ => Raise TypeError
  end.

(** [d != {}] *)
Definition ne_empty_dict (d : value) : bool :=
  match d with
  | VDict [] => false
  | _ => true
  end.

(** [isinstance(d, dict)] *)
Definition is_dict (d : value) : bool :=
  match d with
  | VDict _ => true
  | _ => false
  end.

(** Conversion of an integer operand to float. *)
Definition float_of_int (n : Z) : exc spec_float :=
  match F64.of_Z n with
  | S754_infinity _ => Raise OverflowError
  | x => Ok x
  end.

(** [float(v)] *)
Definition float (v : value) : exc spec_float :=
  match v with
  | VFloat x => Ok x
  | VInt n => float_of_int n
  | VBool b => Ok (F64.of_Z (Z.b2z b))
  | VStr s =>
      match Parse.float_of_string s with
      | Some x => Ok x
      | None => Raise ValueError
      end
  | VNone | VList _ | VDict _ => Raise TypeError
  end.

(** [int(v)] *)
Definition int (v : value) : exc Z :=
  match v with
  | VInt n => Ok n
  | VBool b => Ok (Z.b2z b)
  | VFloat x =>
      match F64.trunc x with
      | Some n => Ok n
      | None =>
          match x with
          | S754_nan => Raise ValueError
          | _ => Raise OverflowError
          end
      end
  | VStr s =>
      match Parse.int_of_string s with
      | Some n => Ok n
      | None => Raise ValueError
      end
  | VNone | VList _ | VDict _ => Raise TypeError
  end.

(** Numbers: integers (booleans among them) and floats. *)
Inductive number : Type :=
| NInt (n : Z)
| NFloat (x : spec_float).

Definition as_number (v : value) : option number :=
  match v with
  | VBool b => Some (NInt (Z.b2z b))
  | VInt n => Some (NInt n)
  | VFloat x => Some (NFloat x)
  | _ => None
  end.

Definition to_float (n : number) : exc spec_float :=
  match n with
  | NInt z => float_of_int z
  | NFloat x => Ok x
  end.

(** [a + b] *)
Definition add (a b : value) : exc value :=
  match as_number a, as_number b with
  | Some (NInt x), Some (NInt y) => Ok (VInt (x + y))
  | Some x, Some y =>
      let* fx := to_float x in
      let* fy := to_float y in
      Ok (VFloat (F64.add fx fy))
  | _, _ =>
      match a, b with
      | VStr s, VStr t => Ok (VStr (s +:+ t))
      | VList l, VList k => Ok (VList (l ++ k))
      | _, _ => Raise TypeError
      end
  end.

(** [x / y] on integers: the float nearest to the quotient. *)
Definition int_truediv (x y : Z) : exc spec_float :=
  match y with
  | Z0 => Raise ZeroDivisionError
  | _ =>
      let neg := xorb (x <? 0)%Z (y <? 0)%Z in
      match Z.abs x, Z.abs y with
      | Zpos n, Zpos d =>
          match F64.of_ratio neg n d with
          | S754_infinity _ => Raise OverflowError
          | q => Ok q
          end
      | _, _ => Ok (S754_zero neg)
      end
  end.

Definition is_zero (x : spec_float) : bool :=
  match x with
  | S754_zero _ => true
  | _ => false
  end.

(** [a / b] *)
Definition truediv (a b : value) : exc value :=
  match as_number a, as_number b with
  | Some (NInt x), Some (NInt y) =>
      let* q := int_truediv x y in Ok (VFloat q)
  | Some x, Some y =>
      let* fx := to_float x in
      let* fy := to_float y in
      if is_zero fy then Raise ZeroDivisionError
      else Ok (VFloat (F64.div fx fy))
  | _, _ => Raise TypeError
  end.

(** [sum(vals)]: from [0], adding from the left. *)
Definition sum (vals : list value) : exc value :=
  for_each vals add (VInt 0).

(** [repr] of a string: quoted, with escapes. *)
Definition hex_digit (n : N) : ascii :=
  if (n <? 10)%N then ascii_of_N (48 + n) else ascii_of_N (87 + n).
Definition escape (quote c : ascii) : string :=
  if Ascii.eqb c quote || Ascii.eqb c "\" then String "\" (String c "")
  else if Ascii.eqb c "010" then "\n"
  else if Ascii.eqb c "013" then "\r"
  else if Ascii.eqb c "009" then "\t"
  else if (Text.code c <? 32)%N || (Text.code c =? 127)%N then
    "\x" +:+ String (hex_digit (Text.code c / 16)) (String (hex_digit (Text.code c mod 16)) "")
  else String c "".
Definition repr_str (s : string) : string :=
  let quote : ascii :=
    if Text.has_char "'" s && negb (Text.has_char "034" s) then "034"%char
    else "'"%char in
  String quote (String.concat "" (map (escape quote) (Text.chars s)))
    +:+ String quote "".

(** [repr(v)] *)
Fixpoint repr (v : value) : string :=
  match v with
  | VNone => "None"
  | VBool b => if b then "True" else "False"
  | VInt n => pretty n
  | VFloat x => F64.repr x
  | VStr s => repr_str s
  | VList l => "[" +:+ Text.join ", " (map repr l) +:+ "]"
  | VDict items =>
      "{" +:+ Text.join ", "
                (map (λ kv, let '(k, w) := kv in repr_str k +:+ ": " +:+ repr w)
                     items)
          +:+ "}"
  end.

(** [str(v)], which is also how an f-string shows [{v}]. *)
Definition str (v : value) : string :=
  match v with
  | VStr s => s
  | _ => repr v
  end.

(** [f"{v:.Nf}"] *)
Definition format_f (p : nat) (v : value) : exc string :=
  match v with
  | VStr _ => Raise ValueError
  | _ =>
      match as_number v with
      | Some n => let* x := to_float n in Ok (F64.format_f p x)
      | None => Raise TypeError
      end
  end.

(** An integer with thousands separators. *)
Definition thousands (n : Z) : string :=
  F64.sign_str (n <? 0)%Z +:+ Text.group3 (pretty (Z.abs n)).

(** [f"{v:,}"] *)
Definition format_comma (v : value) : exc string :=
  match v with
  | VStr _ => Raise ValueError
  | _ =>
      match as_number v with
      | Some (NInt n) => Ok (thousands n)
      | Some (NFloat x) => Ok (F64.repr_grouped x)
      | None => Raise TypeError
      end
  end.

(** [f"{n:02d}"] for a non-negative integer index. *)
Definition format_02d (n : nat) : string := Text.zero_pad 2 (pretty n).

(** [s.title()]: a method of strings only. *)
Definition title (v : value) : exc string :=
  match v with
  | VStr s => Ok (Text.title s)
  | _ => Raise AttributeError
  end.

End Py.

(** ** The script: field access and formatting *)

(** The sentinel. *)
Definition NA : string := "N/A".

(** [def get(d, *keys)] *)
Fixpoint get (d : value) (keys : list string) : exc value :=
  match keys with
  | k :: keys' =>
      if Py.is_dict d then
        let* d' := Py.dict_get d k (VDict []) in
        get d' keys'
      else Ok (VStr NA)
  | [] => Ok (if Py.ne_empty_dict d then d else VStr NA)
  end.

(** [def fmt_cost(v)] *)
Definition fmt_cost (v : value) : exc string :=
  try_except
    (let* x := Py.float v in
     let* s := Py.format_f 4 (VFloat x) in
     Ok ("$" +:+ s))
    Exception
    (Ok NA).

(** [def fmt_time(v)] *)
Definition fmt_time (v : value) : exc string :=
  try_except
    (let* x := Py.float v in
     let* secs := Py.truediv (VFloat x) (VInt 1000) in
     let* s := Py.format_f 1 secs in
     Ok (s +:+ "s"))
    Exception
    (Ok NA).

(** [def fmt_tokens(d)] *)
Definition fmt_tokens (d : value) : exc string :=
  try_except
    (let* usage := Py.dict_get d "usage" (VDict []) in
     let* inp := Py.dict_get usage "input_tokens" (VInt 0) in
     let* cache_read := Py.dict_get usage "cache_read_input_tokens" (VInt 0) in
     let* cache_create := Py.dict_get usage "cache_creation_input_tokens" (VInt 0) in
     let* out := Py.dict_get usage "output_tokens" (VInt 0) in
     let* t1 := Py.add inp cache_read in
     let* t2 := Py.add t1 cache_create in
     let* total := Py.add t2 out in
     Py.format_comma total)
    Exception
    (Ok NA).

(** ** The run directory *)

(** A file, by what the script can observe of it: the text [fh.read()]
    returns and the value [json.load(fh)] returns, or the exception each
    raises. *)
Record file : Type := File {
  read_text : exc string;
  load_json : exc value
}.

(** The files by path, as the script names them. A path with no file
    cannot be opened. *)
Definition fs_read (fs : gmap string file) (path : string) : exc string :=
  match fs !! path with
  | Some f => read_text f
  | None => Raise OSError
  end.

Definition fs_json (fs : gmap string file) (path : string) : exc value :=
  match fs !! path with
  | Some f => load_json f
  | None => Raise OSError
  end.

(** [glob.glob] takes a run directory literally when it has none of the
    characters the pattern language gives a meaning to, and returns the
    paths as the script joins them when the directory does not end in a
    doubled slash (which [glob] drops). The listing is described for such
    run directories only. *)
Definition plain_dir (run_dir : string) : bool :=
  negb (Text.has_char "*" run_dir) && negb (Text.has_char "?" run_dir)
    && negb (Text.has_char "[" run_dir) && negb (Text.ends_with "//" run_dir).

(** For a plain run directory, [glob.glob(os.path.join(run_dir, "*.json"))]
    matches the entries of [run_dir] whose name ends in [.json] and does
    not start with a dot. *)
Definition glob_matches (run_dir path : string) : bool :=
  match Text.strip_prefix (Path.dir_prefix run_dir) path with
  | Some name =>
      negb (Text.has_char "/" name) && negb (Text.starts_with "." name)
        && Text.ends_with ".json" name
  | None => false
  end.

(** [ls] is what [glob.glob] returns for the plain run directory
    [run_dir]: the matching paths once each, in an order the file system
    chooses. *)
Definition glob_listing (run_dir : string) (fs : gmap string file)
    (ls : list string) : Prop :=
  plain_dir run_dir = true
  ∧ NoDup ls
  ∧ ∀ p, p ∈ ls ↔ is_Some (fs !! p) ∧ glob_matches run_dir p = true.

(** [sorted(...)] on strings. *)
Definition sorted : list string → list string := merge_sort String.le.

(** ** The script: metadata and results *)

Record metadata : Type := Metadata {
  models : value;
  labels : list value;
  target : value
}.

(** Lines 12-17. *)
Definition load_meta (run_dir : string) (fs : gmap string file) : exc metadata :=
  let* meta := fs_json fs (Path.join run_dir "prompts.json") in
  let* models := Py.getitem meta "models" in
  let* prompts := Py.getitem meta "prompts" in
  let* ps := Py.iter prompts in
  let* labels := map_exc (λ p, Py.getitem p "label") ps in
  let* target := Py.getitem meta "target" in
  Ok (Metadata models labels target).

(** The key a result file is stored under (line 22). *)
Definition result_name (f : string) : string :=
  Text.replace ".json" "" (Path.basename f).

(** The body of the loop of lines 21-29. *)
Definition load_result (fs : gmap string file) (results : gmap string value)
    (f : string) : exc (gmap string value) :=
  let name := result_name f in
  if String.eqb name "prompts" then Ok results
  else
    let* r := try_except (fs_json fs f) Exception (Ok (VDict [])) in
    Ok (<[name := r]> results).

(** Lines 20-29, over the listing [ls] that [glob.glob] returned. *)
Definition load_results (fs : gmap string file) (ls : list string)
    : exc (gmap string value) :=
  for_each (sorted ls) (load_result fs) ∅.

(** [results.get(key, {})] *)
Definition results_get (results : gmap string value) (key : string) : value :=
  default (VDict []) (results !! key).

(** [enumerate(l)] *)
Fixpoint enumerate_from {A : Type} (i : nat) (l : list A) : list (nat * A) :=
  match l with
  | [] => []
  | x :: l' => (i, x) :: enumerate_from (S i) l'
  end.
Definition enumerate {A : Type} (l : list A) : list (nat * A) :=
  enumerate_from 0 l.

(** [f"{num}-{label}-{model}-{mode}"] with [num = f"{idx+1:02d}"]. *)
Definition trial_key (idx : nat) (label model : value) (mode : string) : string :=
  Py.format_02d (idx + 1) +:+ "-" +:+ Py.str label +:+ "-" +:+ Py.str model
    +:+ "-" +:+ mode.

(** ** The script: the markdown summary *)

Record table_state : Type := TableState {
  lines : list string;
  total_mcp_cost : value;
  total_nomcp_cost : value
}.

(** [total += float(cost)] under [try: ... except Exception: pass]. *)
Definition add_cost (total cost : value) : exc value :=
  try_except
    (let* x := Py.float cost in Py.add total (VFloat x))
    Exception
    (Ok total).

(** The row of line 108-114. *)
Definition row_text (idx : nat) (label : value)
    (tok_mcp tok_nomcp cost_mcp cost_nomcp time_mcp time_nomcp : string)
    (turns_mcp turns_nomcp : value) : string :=
  "| " +:+ pretty (idx + 1) +:+ " | " +:+ Py.str label +:+ " "
    +:+ "| " +:+ tok_mcp +:+ " | " +:+ tok_nomcp +:+ " "
    +:+ "| " +:+ cost_mcp +:+ " | " +:+ cost_nomcp +:+ " "
    +:+ "| " +:+ time_mcp +:+ " | " +:+ time_nomcp +:+ " "
    +:+ "| " +:+ Py.str turns_mcp +:+ " | " +:+ Py.str turns_nomcp +:+ " |".

(** The body of the loop of lines 88-114. *)
Definition table_row (results : gmap string value) (model : value)
    (st : table_state) (entry : nat * value) : exc table_state :=
  let '(idx, label) := entry in
  let key_mcp := trial_key idx label model "with-mcp" in
  let key_nomcp := trial_key idx label model "without-mcp" in
  let d_mcp := results_get results key_mcp in
  let d_nomcp := results_get results key_nomcp in
  let* mcp_cost := get d_mcp ["total_cost_usd"] in
  let* nomcp_cost := get d_nomcp ["total_cost_usd"] in
  let* total_mcp := add_cost (total_mcp_cost st) mcp_cost in
  let* total_nomcp := add_cost (total_nomcp_cost st) nomcp_cost in
  let* tok_mcp := fmt_tokens d_mcp in
  let* tok_nomcp := fmt_tokens d_nomcp in
  let* cost_mcp := fmt_cost mcp_cost in
  let* cost_nomcp := fmt_cost nomcp_cost in
  let* dur_mcp := get d_mcp ["duration_ms"] in
  let* time_mcp := fmt_time dur_mcp in
  let* dur_nomcp := get d_nomcp ["duration_ms"] in
  let* time_nomcp := fmt_time dur_nomcp in
  let* turns_mcp := get d_mcp ["num_turns"] in
  let* turns_nomcp := get d_nomcp ["num_turns"] in
  Ok (TableState
        (lines st ++ [row_text idx label tok_mcp tok_nomcp cost_mcp cost_nomcp
                               time_mcp time_nomcp turns_mcp turns_nomcp])
        total_mcp total_nomcp).

Definition table_header : list string :=
  ["| # | Prompt | MCP Tokens | No-MCP Tokens | MCP Cost | No-MCP Cost | MCP Time | No-MCP Time | MCP Turns | No-MCP Turns |";
   "|---|--------|-----------|--------------|----------|------------|----------|------------|-----------|-------------|"].

Definition total_line (total_mcp total_nomcp : string) : string :=
  "**Total cost:** MCP = $" +:+ total_mcp +:+ ", No-MCP = $" +:+ total_nomcp.

(** The body of the loop of lines 75-120: one model's table. *)
Definition model_section (results : gmap string value) (labels : list value)
    (lines0 : list string) (model : value) : exc (list string) :=
  let* heading := Py.title model in
  let* st :=
    for_each (enumerate labels) (table_row results model)
      (TableState (lines0 ++ ["## " +:+ heading; ""] ++ table_header)
                  (VInt 0) (VInt 0)) in
  let* total_mcp := Py.format_f 4 (total_mcp_cost st) in
  let* total_nomcp := Py.format_f 4 (total_nomcp_cost st) in
  Ok (lines st ++ [""; total_line total_mcp total_nomcp; ""]).

(** The body of the loop of lines 133-147: one transcript. *)
Definition transcript (run_dir : string) (fs : gmap string file)
    (idx : nat) (label model : value) (lines0 : list string) (mode : string)
    : exc (list string) :=
  let txt_file := Path.join run_dir (trial_key idx label model mode +:+ ".txt") in
  let* answer :=
    try_except
      (let* text := fs_read fs txt_file in Ok (Text.strip text))
      Exception
      (Ok NA) in
  let tag := if String.eqb mode "with-mcp" then "WITH MCP" else "WITHOUT MCP" in
  Ok (lines0 ++ ["<details><summary>" +:+ tag +:+ "</summary>"; "";
                 answer; ""; "</details>"; ""]).

(** The body of the loop of lines 128-147. *)
Definition answer_section (run_dir : string) (fs : gmap string file)
    (model : value) (lines0 : list string) (entry : nat * value)
    : exc (list string) :=
  let '(idx, label) := entry in
  let* heading := Py.title model in
  for_each ["with-mcp"; "without-mcp"] (transcript run_dir fs idx label model)
    (lines0 ++ ["### " +:+ heading +:+ " - " +:+ Py.str label; ""]).

(** Lines 68-147: the lines of the summary. *)
Definition summary_lines (run_dir : string) (fs : gmap string file)
    (results : gmap string value) (meta : metadata) : exc (list string) :=
  let lines0 :=
    ["# Mycelium MCP Benchmark Results"; "";
     "**Date:** " +:+ Path.basename run_dir;
     "**Target:** " +:+ Py.str (target meta); ""] in
  let* ms := Py.iter (models meta) in
  let* lines1 := for_each ms (model_section results (labels meta)) lines0 in
  let lines2 := lines1 ++ ["---"; ""; "## Answer Comparison"; ""] in
  let* ms' := Py.iter (models meta) in
  for_each ms'
    (λ lines0 model,
       for_each (enumerate (labels meta)) (answer_section run_dir fs model) lines0)
    lines2.

Definition newline : string := String "010" "".

(** Lines 9-151: the text written to [summary.md]. *)
Definition summary (run_dir : string) (fs : gmap string file) (ls : list string)
    : exc string :=
  let* meta := load_meta run_dir fs in
  let* results := load_results fs ls in
  let* lines := summary_lines run_dir fs results meta in
  Ok (Text.join newline lines).

(** ** The script: chart averages *)

Inductive metric : Set := Cost | Time | Turns | Tokens.

(** [{"cost": [], "time": [], "turns": [], "tokens": []}] *)
Record metric_lists : Type := MetricLists {
  cost : list value;
  time : list value;
  turns : list value;
  tokens : list value
}.

Definition metric_list (mt : metric) (m : metric_lists) : list value :=
  match mt with
  | Cost => cost m
  | Time => time m
  | Turns => turns m
  | Tokens => tokens m
  end.

Definition append_metric (mt : metric) (v : value) (m : metric_lists)
    : metric_lists :=
  match mt with
  | Cost => MetricLists (cost m ++ [v]) (time m) (turns m) (tokens m)
  | Time => MetricLists (cost m) (time m ++ [v]) (turns m) (tokens m)
  | Turns => MetricLists (cost m) (time m) (turns m ++ [v]) (tokens m)
  | Tokens => MetricLists (cost m) (time m) (turns m) (tokens m ++ [v])
  end.

(** The value each [try] block of lines 172-192 appends. *)
Definition metric_value (mt : metric) (d : value) : exc value :=
  match mt with
  | Cost =>
      let* c := get d ["total_cost_usd"] in
      let* x := Py.float c in
      Ok (VFloat x)
  | Time =>
      let* t := get d ["duration_ms"] in
      let* x := Py.float t in
      Py.truediv (VFloat x) (VInt 1000)
  | Turns =>
      let* t := get d ["num_turns"] in
      let* n := Py.int t in
      Ok (VInt n)
  | Tokens =>
      let* usage := Py.dict_get d "usage" (VDict []) in
      let* inp := Py.dict_get usage "input_tokens" (VInt 0) in
      let* cache_read := Py.dict_get usage "cache_read_input_tokens" (VInt 0) in
      let* t1 := Py.add inp cache_read in
      let* cache_create := Py.dict_get usage "cache_creation_input_tokens" (VInt 0) in
      let* t2 := Py.add t1 cache_create in
      let* out := Py.dict_get usage "output_tokens" (VInt 0) in
      Py.add t2 out
  end.

(** [try: metrics[model][mode][mt].append(...) except Exception: pass] *)
Definition collect_metric (d : value) (m : metric_lists) (mt : metric)
    : exc metric_lists :=
  try_except
    (let* v := metric_value mt d in Ok (append_metric mt v m))
    Exception
    (Ok m).

(** The body of the loop over [mode] (lines 169-192) for one trial. *)
Definition collect_trial (results : gmap string value) (model : value)
    (idx : nat) (label : value) (mode : string) (m : metric_lists)
    : exc metric_lists :=
  let key := trial_key idx label model mode in
  let d := results_get results key in
  for_each [Cost; Time; Turns; Tokens] (collect_metric d) m.

(** [metrics[model]]: the lists of the two modes. *)
Record model_metrics : Type := ModelMetrics {
  with_mcp : metric_lists;
  without_mcp : metric_lists
}.

Definition empty_lists : metric_lists := MetricLists [] [] [] [].

(** The body of the loop over the prompts (lines 167-192). *)
Definition collect_prompt (results : gmap string value) (model : value)
    (mm : model_metrics) (entry : nat * value) : exc model_metrics :=
  let '(idx, label) := entry in
  let* w := collect_trial results model idx label "with-mcp" (with_mcp mm) in
  let* wo := collect_trial results model idx label "without-mcp" (without_mcp mm) in
  Ok (ModelMetrics w wo).

(** Lines 164-192 for one model: [metrics[model]] once its loop is over. *)
Definition collect_model (results : gmap string value) (labels : list value)
    (model : value) : exc model_metrics :=
  for_each (enumerate labels) (collect_prompt results model)
    (ModelMetrics empty_lists empty_lists).

(** [def safe_avg(vals)] *)
Definition safe_avg (vals : list value) : exc value :=
  match vals with
  | [] => Ok (VInt 0)
  | _ :: _ =>
      let* s := Py.sum vals in
      Py.truediv s (VInt (Z.of_nat (length vals)))
  end.

(** One chart of the grid: its title and the heights of the bars of the
    two modes, one per model (lines 214-215). *)
Record bars : Type := Bars {
  chart_title : string;
  mcp_vals : list value;
  nomcp_vals : list value
}.

Definition chart_configs : list (string * metric) :=
  [("Cost ($)", Cost); ("Time (s)", Time); ("Turns", Turns); ("Tokens", Tokens)].

Definition chart_bars (metrics : list model_metrics) (config : string * metric)
    : exc bars :=
  let '(title, mt) := config in
  let* mcp := map_exc (λ m, safe_avg (metric_list mt (with_mcp m))) metrics in
  let* nomcp := map_exc (λ m, safe_avg (metric_list mt (without_mcp m))) metrics in
  Ok (Bars title mcp nomcp).

(** Lines 156-249, up to the bar heights handed to the plotting library:
    [None] when the library is not installed. The dictionary [metrics] is
    read at the models it was filled at, in their order, so it is kept as
    the list of its entries. *)
Definition charts (has_matplotlib : bool) (results : gmap string value)
    (meta : metadata) : exc (option (list bars)) :=
  try_except
    (if has_matplotlib then
       let* ms := Py.iter (models meta) in
       let* metrics := map_exc (collect_model results (labels meta)) ms in
       let* bs := map_exc (chart_bars metrics) chart_configs in
       Ok (Some bs)
     else Raise ImportError)
    is_ImportError
    (Ok None).

(** ** The script as a whole *)

(** Lines 149-151, [with open(out_path, "w") as f: f.write(text)], in the
    environment of the run, by what it does for a path and a text: it
    returns when the text was written and raises otherwise, with [OSError]
    when the file cannot be opened for writing and with
    [UnicodeEncodeError] when the text holds a character the encoding of
    the file cannot write (a lone surrogate from a JSON escape, for one). *)
Definition writer : Type := string → string → exc unit.

(** What a run leaves behind: the text written to [summary.md], if the run
    got that far and the write went through; the bars of [chart.png], if
    it was drawn; and the exception that ended the run, if one did. *)
Record outcome : Type := Outcome {
  summary_md : option string;
  chart_png : option (list bars);
  uncaught : option exn
}.

Definition main (run_dir : string) (fs : gmap string file) (ls : list string)
    (has_matplotlib : bool) (write : writer) : outcome :=
  match load_meta run_dir fs with
  | Raise e => Outcome None None (Some e)
  | Ok meta =>
      match
        (let* results := load_results fs ls in
         let* lines := summary_lines run_dir fs results meta in
         Ok (results, Text.join newline lines))
      with
      | Raise e => Outcome None None (Some e)
      | Ok (results, text) =>
          match write (Path.join run_dir "summary.md") text with
          | Raise e => Outcome None None (Some e)
          | Ok _ =>
              match charts has_matplotlib results meta with
              | Raise e => Outcome (Some text) None (Some e)
              | Ok c => Outcome (Some text) c None
              end
          end
      end
  end.

(** * Definitions the properties are stated with *)

(** Walking the chain of keys through nested mappings: [None] as soon as a
    key is missing or the value at hand is not a mapping. *)
Fixpoint walk (d : value) (keys : list string) : option value :=
  match keys with
  | [] => Some d
  | k :: keys' =>
      match d with
      | VDict items =>
          match Py.lookup_key k items with
          | Some v => walk v keys'
          | None => None
          end
      | _ => None
      end
  end.

(** The float 1.5. *)
Definition one_and_a_half : spec_float := F64.of_decimal false 15 (-1).

(** A record with a cost and no [usage] key. *)
Definition record_without_usage : value :=
  VDict [("total_cost_usd", VFloat one_and_a_half); ("num_turns", VInt 3)].

(** The usage of the specification's example. *)
Definition usage_example : value :=
  VDict [("input_tokens", VInt 100); ("cache_read_input_tokens", VInt 50);
         ("cache_creation_input_tokens", VInt 0); ("output_tokens", VInt 25)].

(** The result of a computation that cannot raise. *)
Definition ok_or {A : Type} (dflt : A) (m : exc A) : A :=
  match m with
  | Ok a => a
  | Raise _ => dflt
  end.

(** What [get(d, k)] returns. *)
Definition field (d : value) (k : string) : value := ok_or (VStr NA) (get d [k]).

(** The four cells a row shows for one trial record. *)
Definition tokens_cell (d : value) : string := ok_or NA (fmt_tokens d).
Definition cost_cell (d : value) : string :=
  ok_or NA (fmt_cost (field d "total_cost_usd")).
Definition time_cell (d : value) : string :=
  ok_or NA (fmt_time (field d "duration_ms")).
Definition turns_cell (d : value) : string := Py.str (field d "num_turns").

(** The record the table reads for a prompt, a model and a mode. *)
Definition trial (results : gmap string value) (model : value) (mode : string)
    (entry : nat * value) : value :=
  results_get results (trial_key entry.1 entry.2 model mode).

(** The table row of a prompt. *)
Definition row (results : gmap string value) (model : value)
    (entry : nat * value) : string :=
  let d_mcp := trial results model "with-mcp" entry in
  let d_nomcp := trial results model "without-mcp" entry in
  "| " +:+ pretty (entry.1 + 1) +:+ " | " +:+ Py.str entry.2 +:+ " "
    +:+ "| " +:+ tokens_cell d_mcp +:+ " | " +:+ tokens_cell d_nomcp +:+ " "
    +:+ "| " +:+ cost_cell d_mcp +:+ " | " +:+ cost_cell d_nomcp +:+ " "
    +:+ "| " +:+ time_cell d_mcp +:+ " | " +:+ time_cell d_nomcp +:+ " "
    +:+ "| " +:+ turns_cell d_mcp +:+ " | " +:+ turns_cell d_nomcp +:+ " |".

(** The running total after one more trial record. *)
Definition next_total (results : gmap string value) (model : value)
    (mode : string) (total : value) (entry : nat * value) : value :=
  ok_or total (add_cost total (field (trial results model mode entry) "total_cost_usd")).

(** A running total is the integer 0 the loop starts from, or a float. *)
Definition is_total (t : value) : Prop := t = VInt 0 ∨ ∃ x, t = VFloat x.

Definition total_float (t : value) : spec_float :=
  match t with
  | VFloat x => x
  | _ => F64.of_Z 0
  end.

(** The cost of a trial: the number [float] reads from the
    [total_cost_usd] of the record stored under the key, if there is such
    a record, it is a mapping, it has the field, and the field reads as a
    number. *)
Definition trial_cost (results : gmap string value) (key : string)
    : option spec_float :=
  match results !! key with
  | Some (VDict items) =>
      match Py.lookup_key "total_cost_usd" items with
      | Some c =>
          match Py.float c with
          | Ok x => Some x
          | Raise _ => None
          end
      | None => None
      end
  | _ => None
  end.

(** The sum of a list of floats as the script computes it: from 0, adding
    from the left. *)
Definition float_sum (xs : list spec_float) : spec_float :=
  foldl F64.add (F64.of_Z 0) xs.

(** The costs of the trials of a model in one mode, in the order of the
    prompts; a trial without a readable cost has none. *)
Definition trial_costs (results : gmap string value) (model : value)
    (mode : string) (entries : list (nat * value)) : list spec_float :=
  omap (λ entry, trial_cost results (trial_key entry.1 entry.2 model mode)) entries.

(** The lines of the table of one model. *)
Definition model_table (results : gmap string value) (labels : list value)
    (s : string) : list string :=
  ["## " +:+ Text.title s; ""] ++ table_header
    ++ map (row results (VStr s)) (enumerate labels)
    ++ [""; total_line
              (F64.format_f 4 (float_sum
                 (trial_costs results (VStr s) "with-mcp" (enumerate labels))))
              (F64.format_f 4 (float_sum
                 (trial_costs results (VStr s) "without-mcp" (enumerate labels))));
        ""].

(** The text shown for a transcript file. *)
Definition answer (run_dir : string) (fs : gmap string file) (key : string)
    : string :=
  match fs_read fs (Path.join run_dir (key +:+ ".txt")) with
  | Ok text => Text.strip text
  | Raise _ => NA
  end.

Definition transcript_block (tag answer : string) : list string :=
  ["<details><summary>" +:+ tag +:+ "</summary>"; ""; answer; ""; "</details>"; ""].

(** The lines of the answers to one prompt by one model. *)
Definition answer_block (run_dir : string) (fs : gmap string file) (s : string)
    (entry : nat * value) : list string :=
  ["### " +:+ Text.title s +:+ " - " +:+ Py.str entry.2; ""]
    ++ transcript_block "WITH MCP"
         (answer run_dir fs (trial_key entry.1 entry.2 (VStr s) "with-mcp"))
    ++ transcript_block "WITHOUT MCP"
         (answer run_dir fs (trial_key entry.1 entry.2 (VStr s) "without-mcp")).

(** The lines of the whole summary, for models that are strings. *)
Definition report (run_dir : string) (fs : gmap string file)
    (results : gmap string value) (meta : metadata) (ss : list string)
    : list string :=
  ["# Mycelium MCP Benchmark Results"; "";
   "**Date:** " +:+ Path.basename run_dir;
   "**Target:** " +:+ Py.str (target meta); ""]
    ++ concat (map (model_table results (labels meta)) ss)
    ++ ["---"; ""; "## Answer Comparison"; ""]
    ++ concat (map (λ s, concat (map (answer_block run_dir fs s)
                                      (enumerate (labels meta)))) ss).

(** What the loop stores for a file: its content, or the empty record
    when it cannot be read or parsed. *)
Definition loaded (fs : gmap string file) (f : string) : value :=
  ok_or (VDict []) (fs_json fs f).

Definition store (fs : gmap string file) (results : gmap string value)
    (f : string) : gmap string value :=
  if String.eqb (result_name f) "prompts" then results
  else <[result_name f := loaded fs f]> results.

(** The two modes of a trial. *)
Definition modes : list string := ["with-mcp"; "without-mcp"].

(** The composite keys the metadata gives rise to: one per model, prompt
    and mode. *)
Definition trial_keys (meta : metadata) : list string :=
  match Py.iter (models meta) with
  | Ok ms =>
      concat (map (λ model,
                concat (map (λ entry : nat * value,
                          map (trial_key entry.1 entry.2 model) modes)
                        (enumerate (labels meta))))
              ms)
  | Raise _ => []
  end.

(** The path of the metadata descriptor and of the two files a run
    writes. *)
Definition meta_path (run_dir : string) : string := Path.join run_dir "prompts.json".
Definition summary_path (run_dir : string) : string := Path.join run_dir "summary.md".
Definition chart_path (run_dir : string) : string := Path.join run_dir "chart.png".

(** What [summary.md] holds after the write of a text: the text when the
    write went through. *)
Definition written (write : writer) (path text : string) : option string :=
  match write path text with
  | Ok _ => Some text
  | Raise _ => None
  end.

(** An environment in which every write goes through. *)
Definition writes_all : writer := λ _ _, Ok tt.

(** ** A small run directory

    One model and one prompt; the trial with MCP has a record and a
    transcript, the trial without has neither. *)

Definition example_meta : value :=
  VDict [("models", VList [VStr "m"]);
         ("prompts", VList [VDict [("label", VStr "a")]]);
         ("target", VStr "t")].

Definition example_record : value :=
  VDict [("total_cost_usd", VFloat one_and_a_half); ("duration_ms", VInt 2500);
         ("num_turns", VInt 3); ("usage", usage_example)].

(** A file that holds JSON, and one that does not. *)
Definition json_file (v : value) : file := File (Ok "(json)") (Ok v).
Definition text_file (text : string) : file := File (Ok text) (Raise ValueError).

Definition example_fs : gmap string file :=
  <["run/prompts.json" := json_file example_meta]>
    (<["run/01-a-m-with-mcp.json" := json_file example_record]>
       (<["run/01-a-m-with-mcp.txt" := text_file " It works. "]> ∅)).

Definition example_ls : list string :=
  ["run/prompts.json"; "run/01-a-m-with-mcp.json"].

(** The directory after a run: the two files it writes are there. *)
Definition example_fs_after (text : string) : gmap string file :=
  <["run/summary.md" := text_file text]>
    (<["run/chart.png" := File (Raise ValueError) (Raise ValueError)]> example_fs).

(** A run directory with the metadata descriptor and no trial file. *)
Definition meta_only_fs : gmap string file :=
  <["run/prompts.json" := json_file example_meta]> ∅.

(** A run directory whose only trial file does not parse. *)
Definition unparsable_fs : gmap string file :=
  <["run/prompts.json" := json_file example_meta]>
    (<["run/01-a-m-with-mcp.json" := text_file "{"]> ∅).

(** The summary of a run directory with one model [m] and one prompt [a],
    for the given table row, total with MCP and answer with MCP; there is
    no cost and no answer without MCP. *)
Definition one_row_summary (row total_mcp answer_mcp : string) : string :=
  Text.join newline
    (["# Mycelium MCP Benchmark Results"; ""; "**Date:** run"; "**Target:** t"; "";
      "## M"; ""] ++ table_header
       ++ [row; ""; "**Total cost:** MCP = $" +:+ total_mcp +:+ ", No-MCP = $0.0000"; "";
           "---"; ""; "## Answer Comparison"; "";
           "### M - a"; "";
           "<details><summary>WITH MCP</summary>"; ""; answer_mcp; ""; "</details>"; "";
           "<details><summary>WITHOUT MCP</summary>"; ""; "N/A"; ""; "</details>"; ""]).

(** The example directory with one more file, whose name is the name of
    the trial file with [.json] appended. *)
Definition stray_fs : gmap string file :=
  <["run/01-a-m-with-mcp.json.json" := json_file (VDict [("num_turns", VInt 99)])]>
    example_fs.

Definition stray_ls : list string :=
  example_ls ++ ["run/01-a-m-with-mcp.json.json"].

(** The last character of a string. *)
Fixpoint last_char (s : string) : option ascii :=
  match s with
  | "" => None
  | String c s' =>
      match s' with
      | "" => Some c
      | String _ _ => last_char s'
      end
  end.

(** ** Chart values in closed form *)

Definition to_option {A : Type} (m : exc A) : option A :=
  match m with
  | Ok a => Some a
  | Raise _ => None
  end.

(** The values of a metric over the prompts, for a model and a mode: those
    of the prompts for which the computation of the metric does not raise,
    in the order of the prompts. *)
Definition metric_values (results : gmap string value) (labels : list value)
    (model : value) (mode : string) (mt : metric) : list value :=
  omap (λ entry, to_option (metric_value mt (trial results model mode entry)))
       (enumerate labels).

(** The bars of one chart, from the values of its metric. *)
Definition metric_bars (results : gmap string value) (labels : list value)
    (ms : list value) (config : string * metric) : exc bars :=
  let* mcp :=
    map_exc (λ model, safe_avg (metric_values results labels model "with-mcp" config.2)) ms in
  let* nomcp :=
    map_exc (λ model, safe_avg (metric_values results labels model "without-mcp" config.2)) ms in
  Ok (Bars config.1 mcp nomcp).

(** Two prompts, and a record for the first one with MCP only. *)
Definition two_prompts_meta : metadata :=
  Metadata (VList [VStr "m"]) [VStr "a"; VStr "b"] (VStr "t").

Definition two_prompts_results : gmap string value :=
  {[ "01-a-m-with-mcp" :=
       VDict [("num_turns", VInt 4); ("usage", VDict [("input_tokens", VInt 100)])] ]}.

(** A record whose four sub-counts are strings, and a run directory whose
    only trial file holds it. *)
Definition text_counts_record : value :=
  VDict [("usage",
          VDict [("input_tokens", VStr "1"); ("cache_read_input_tokens", VStr "2");
                 ("cache_creation_input_tokens", VStr "3");
                 ("output_tokens", VStr "4")])].

Definition text_counts_results : gmap string value :=
  {[ "01-a-m-with-mcp" := text_counts_record ]}.

Definition text_counts_fs : gmap string file :=
  <["run/prompts.json" := json_file example_meta]>
    (<["run/01-a-m-with-mcp.json" := json_file text_counts_record]> ∅).

(** [metrics[model]] once the loop over the prompts is over. *)
Definition collected (results : gmap string value) (labels : list value)
    (model : value) : model_metrics :=
  ok_or (ModelMetrics empty_lists empty_lists) (collect_model results labels model).

(** A prompt descriptor with a label: a mapping with the key [label]. *)
Definition has_label (p l : value) : Prop :=
  ∃ items, p = VDict items ∧ Py.lookup_key "label" items = Some l.

(** [pat in s]: the string [pat] occurs in [s]. *)
Fixpoint occurs (pat s : string) : bool :=
  String.prefix pat s ||
    match s with
    | "" => false
    | String _ s' => occurs pat s'
    end.

(** The files of a listing that are stored under a key, in the order in
    which the script reads them. *)
Definition files_of (key : string) (ls : list string) : list string :=
  filter (λ f, result_name f = key) (sorted ls).

(** A string of decimal digits. *)
Fixpoint all_digits (s : string) : bool :=
  match s with
  | "" => true
  | String c s' => Text.is_digit c && all_digits s'
  end.

(** ** Exact sums

    The number a finite float stands for, as a rational, and the sum of
    such numbers without rounding. An infinity or a NaN stands for no
    number and counts as 0 here. *)
Definition exact_value (x : spec_float) : Q :=
  match x with
  | S754_finite s m e =>
      Qmult (inject_Z (if s then Zneg m else Zpos m)) (Qpower (Qmake 2 1) e)
  | _ => 0%Q
  end.

Definition exact_sum (xs : list spec_float) : Q :=
  foldr (λ x q, Qplus (exact_value x) q) 0%Q xs.

(** Two prompts whose trials with MCP cost 0.00015 and 0.0001. *)
Definition small_costs_results : gmap string value :=
  {[ "01-a-m-with-mcp" :=
       VDict [("total_cost_usd", VFloat (F64.of_decimal false 15 (-5)))];
     "02-b-m-with-mcp" :=
       VDict [("total_cost_usd", VFloat (F64.of_decimal false 1 (-4)))] ]}.

(** * Properties *)

(** ** Exceptions and loops *)

Lemma try_except_Exception {A : Type} (body : exc A) (a : A) :
  ∃ r, try_except body Exception (Ok a) = Ok r.
Proof. destruct body as [r|e]; simpl; eauto. Qed.

Lemma for_each_ext {A S : Type} (l : list A) (f g : S → A → exc S) (acc : S) :
  (∀ s x, x ∈ l → f s x = g s x) → for_each l f acc = for_each l g acc.
Proof.
  revert acc. induction l as [|x l IH]; intros acc Hfg; simpl; [done|].
  rewrite (Hfg acc x) by left.
  destruct (g acc x) as [acc'|e]; simpl; [|done].
  apply IH. intros s y Hy. apply Hfg. by right.
Qed.

Lemma map_exc_ext {A B : Type} (f g : A → exc B) (l : list A) :
  (∀ x, x ∈ l → f x = g x) → map_exc f l = map_exc g l.
Proof.
  induction l as [|x l IH]; intros Hfg; simpl; [done|].
  rewrite (Hfg x) by left. rewrite IH; [done|].
  intros y Hy. apply Hfg. by right.
Qed.

(** ** [get] *)

Lemma get_empty (keys : list string) : get (VDict []) keys = Ok (VStr NA).
Proof. induction keys as [|k keys IH]; simpl; [done | apply IH]. Qed.

(** C6. For every value and every chain of keys, [get] returns the sentinel
    when the walk along the keys stops at a missing key or at a value that
    is not a mapping, the sentinel when the walk ends in the empty mapping,
    and the value the walk ends in otherwise; it never raises. *)
Theorem get_walk (d : value) (keys : list string) :
  get d keys
  = Ok match walk d keys with
       | None => VStr NA
       | Some (VDict []) => VStr NA
       | Some v => v
       end.
Proof.
  revert d. induction keys as [|k keys IH]; intros d.
  - by destruct d as [| | | | | |[|]].
  - destruct d as [| | | | | |items]; simpl; try done.
    destruct (Py.lookup_key k items) as [v|]; simpl.
    + apply IH.
    + apply get_empty.
Qed.

Lemma get_total (d : value) (keys : list string) : ∃ v, get d keys = Ok v.
Proof.
  revert d. induction keys as [|k keys IH]; intros d; simpl; [eauto|].
  destruct d; simpl; eauto.
Qed.

Lemma get_key (items : list (string * value)) (k : string) :
  get (VDict items) [k]
  = Ok match Py.lookup_key k items with
       | None | Some (VDict []) => VStr NA
       | Some v => v
       end.
Proof.
  simpl. destruct (Py.lookup_key k items) as [v|]; simpl; [|done].
  by destruct v as [| | | | | |[|]].
Qed.

(** ** The formatters *)

Lemma truediv_1000 (x : spec_float) :
  Py.truediv (VFloat x) (VInt 1000) = Ok (VFloat (F64.div x (F64.of_Z 1000))).
Proof. done. Qed.

Lemma fmt_cost_float (v : value) :
  fmt_cost v
  = Ok match Py.float v with
       | Ok x => "$" +:+ F64.format_f 4 x
       | Raise _ => NA
       end.
Proof. unfold fmt_cost. by destruct (Py.float v). Qed.

Lemma fmt_time_float (v : value) :
  fmt_time v
  = Ok match Py.float v with
       | Ok x => F64.format_f 1 (F64.div x (F64.of_Z 1000)) +:+ "s"
       | Raise _ => NA
       end.
Proof.
  unfold fmt_time. destruct (Py.float v) as [x|e]; [|done].
  cbn [bind]. rewrite truediv_1000. done.
Qed.

(** C8. Each of the three formatters returns a string for every value,
    whatever its shape, and never raises: [fmt_cost] and [fmt_time] return
    the formatted number when [float] accepts the value and the sentinel
    otherwise, [fmt_tokens] a formatted total or the sentinel. *)
Theorem formatters_total (v : value) :
  (∃ s, fmt_cost v = Ok s
        ∧ (s = NA ∨ ∃ x, Py.float v = Ok x ∧ s = "$" +:+ F64.format_f 4 x))
  ∧ (∃ s, fmt_time v = Ok s
          ∧ (s = NA ∨ ∃ x, Py.float v = Ok x
                           ∧ s = F64.format_f 1 (F64.div x (F64.of_Z 1000)) +:+ "s"))
  ∧ (∃ s, fmt_tokens v = Ok s
          ∧ (s = NA ∨ ∃ total, Py.format_comma total = Ok s)).
Proof.
  split; [|split].
  - rewrite fmt_cost_float. destruct (Py.float v) as [x|e]; eauto 6.
  - rewrite fmt_time_float. destruct (Py.float v) as [x|e]; eauto 6.
  - unfold fmt_tokens.
    repeat
      match goal with
      | |- context [bind ?m _] =>
          let r := fresh "r" in
          destruct m as [r|?] eqn:?; cbn [bind try_except Exception]; [|by eauto]
      end.
    destruct (Py.format_comma _) as [s|e] eqn:Hs; cbn [try_except Exception];
      eauto 6.
Qed.

Lemma fmt_tokens_total (d : value) : ∃ s, fmt_tokens d = Ok s.
Proof. apply try_except_Exception. Qed.

(** C10. The cost and duration formatters and the cost total go through
    [float], which reads numbers from strings: the string 1.5 as a cost
    shows as $1.5000 and adds 1.5 to the total, the string 2500 as a
    duration shows as 2.5s; in general a string is formatted as the number
    [float] reads from it. *)
Theorem numeric_strings_accepted :
  fmt_cost (VStr "1.5") = Ok "$1.5000"
  ∧ fmt_time (VStr "2500") = Ok "2.5s"
  ∧ add_cost (VInt 0) (VStr "1.5") = Ok (VFloat one_and_a_half)
  ∧ (∀ t, add_cost (VFloat t) (VStr "1.5") = Ok (VFloat (F64.add t one_and_a_half)))
  ∧ (∀ s, fmt_cost (VStr s)
          = Ok match Parse.float_of_string s with
               | Some x => "$" +:+ F64.format_f 4 x
               | None => NA
               end)
  ∧ (∀ s, fmt_time (VStr s)
          = Ok match Parse.float_of_string s with
               | Some x => F64.format_f 1 (F64.div x (F64.of_Z 1000)) +:+ "s"
               | None => NA
               end).
Proof.
  split; [by vm_compute|]. split; [by vm_compute|]. split; [by vm_compute|].
  split; [intros t; by vm_compute|].
  split; intros s.
  - rewrite fmt_cost_float. simpl. by destruct (Parse.float_of_string s).
  - rewrite fmt_time_float. simpl. by destruct (Parse.float_of_string s).
Qed.

(** ** [fmt_tokens] *)

(** C1, as stated, fails: a record with no [usage] key is formatted as 0,
    not as the sentinel. *)
Lemma fmt_tokens_without_usage :
  Py.dict_get record_without_usage "usage" VNone = Ok VNone
  ∧ fmt_tokens record_without_usage = Ok "0"
  ∧ fmt_tokens record_without_usage ≠ Ok NA.
Proof. by vm_compute. Qed.

(** C1, amended. For a record that is a mapping whose usage is a mapping
    (the empty one when the [usage] key is absent) with integer sub-counts
    (0 for an absent one), [fmt_tokens] returns the sum of the four
    sub-counts with thousands separators; so a record with no [usage] key
    shows 0. It returns the sentinel when the record is not a mapping or
    its usage is not a mapping. The example usage shows 175. *)
Theorem fmt_tokens_spec :
  (∀ items usage i r c o,
     default (VDict []) (Py.lookup_key "usage" items) = VDict usage →
     default (VInt 0) (Py.lookup_key "input_tokens" usage) = VInt i →
     default (VInt 0) (Py.lookup_key "cache_read_input_tokens" usage) = VInt r →
     default (VInt 0) (Py.lookup_key "cache_creation_input_tokens" usage) = VInt c →
     default (VInt 0) (Py.lookup_key "output_tokens" usage) = VInt o →
     fmt_tokens (VDict items) = Ok (Py.thousands (i + r + c + o)))
  ∧ (∀ items,
       Py.lookup_key "usage" items = None → fmt_tokens (VDict items) = Ok "0")
  ∧ (∀ d, Py.is_dict d = false → fmt_tokens d = Ok NA)
  ∧ (∀ items u,
       Py.lookup_key "usage" items = Some u → Py.is_dict u = false →
       fmt_tokens (VDict items) = Ok NA)
  ∧ fmt_tokens (VDict [("usage", usage_example)]) = Ok "175".
Proof.
  split; [|split; [|split; [|split]]].
  - intros items usage i r c o Hu Hi Hr Hc Ho. unfold fmt_tokens.
    cbn [Py.dict_get bind]. rewrite Hu. cbn [Py.dict_get bind].
    rewrite Hi, Hr, Hc, Ho. done.
  - intros items Hu. unfold fmt_tokens. cbn [Py.dict_get bind].
    rewrite Hu. by vm_compute.
  - intros d Hd. by destruct d.
  - intros items u Hu Hd. unfold fmt_tokens. cbn [Py.dict_get bind].
    rewrite Hu. by destruct u.
  - by vm_compute.
Qed.

Lemma fmt_tokens_spec_witness :
  fmt_tokens
    (VDict [("usage", VDict [("input_tokens", VInt 1200); ("output_tokens", VInt 34)])])
  = Ok (Py.thousands (1200 + 0 + 0 + 34)).
Proof.
  apply (proj1 fmt_tokens_spec _ [("input_tokens", VInt 1200); ("output_tokens", VInt 34)]);
    reflexivity.
Defined.

(** ** The table of one model *)

Lemma bind_total {A B : Type} (dflt : A) (m : exc A) (k : A → exc B) :
  (∃ a, m = Ok a) → bind m k = k (ok_or dflt m).
Proof. by intros [a ->]. Qed.

Lemma add_cost_total (total c : value) : ∃ r, add_cost total c = Ok r.
Proof. apply try_except_Exception. Qed.

Lemma fmt_cost_total (v : value) : ∃ s, fmt_cost v = Ok s.
Proof. apply try_except_Exception. Qed.

Lemma fmt_time_total (v : value) : ∃ s, fmt_time v = Ok s.
Proof. apply try_except_Exception. Qed.

Lemma table_row_eq (results : gmap string value) (model : value)
    (st : table_state) (entry : nat * value) :
  table_row results model st entry
  = Ok (TableState (lines st ++ [row results model entry])
          (next_total results model "with-mcp" (total_mcp_cost st) entry)
          (next_total results model "without-mcp" (total_nomcp_cost st) entry)).
Proof.
  destruct entry as [idx label]. unfold table_row.
  rewrite (bind_total (VStr NA)) by apply get_total.
  rewrite (bind_total (VStr NA)) by apply get_total.
  rewrite (bind_total (total_mcp_cost st)) by apply add_cost_total.
  rewrite (bind_total (total_nomcp_cost st)) by apply add_cost_total.
  rewrite (bind_total NA) by apply fmt_tokens_total.
  rewrite (bind_total NA) by apply fmt_tokens_total.
  rewrite (bind_total NA) by apply fmt_cost_total.
  rewrite (bind_total NA) by apply fmt_cost_total.
  rewrite (bind_total (VStr NA)) by apply get_total.
  rewrite (bind_total NA) by apply fmt_time_total.
  rewrite (bind_total (VStr NA)) by apply get_total.
  rewrite (bind_total NA) by apply fmt_time_total.
  rewrite (bind_total (VStr NA)) by apply get_total.
  rewrite (bind_total (VStr NA)) by apply get_total.
  reflexivity.
Qed.

Lemma table_rows (results : gmap string value) (model : value)
    (l : list (nat * value)) (st : table_state) :
  for_each l (table_row results model) st
  = Ok (TableState (lines st ++ map (row results model) l)
          (foldl (next_total results model "with-mcp") (total_mcp_cost st) l)
          (foldl (next_total results model "without-mcp") (total_nomcp_cost st) l)).
Proof.
  revert st. induction l as [|entry l IH]; intros st; simpl.
  - rewrite app_nil_r. by destruct st.
  - rewrite table_row_eq. cbn [bind]. rewrite IH. cbn [lines total_mcp_cost total_nomcp_cost].
    by rewrite <- app_assoc.
Qed.

(** *** The cost total *)

Lemma format_total (t : value) :
  is_total t → Py.format_f 4 t = Ok (F64.format_f 4 (total_float t)).
Proof. by intros [->|[x ->]]. Qed.

Lemma add_total (t : value) (x : spec_float) :
  is_total t → Py.add t (VFloat x) = Ok (VFloat (F64.add (total_float t) x)).
Proof. by intros [->|[y ->]]. Qed.

Lemma float_field_cost (results : gmap string value) (key : string) :
  match Py.float (field (results_get results key) "total_cost_usd") with
  | Ok x => Some x
  | Raise _ => None
  end = trial_cost results key.
Proof.
  unfold trial_cost, results_get, field.
  destruct (results !! key) as [[| | | | | |items]|]; try done.
  unfold default. cbn [from_option id]. rewrite get_key. cbn [ok_or].
  destruct (Py.lookup_key "total_cost_usd" items) as [c|]; [|done].
  by destruct c as [| | | | | |[|]].
Qed.

Lemma next_total_cost (results : gmap string value) (model : value)
    (mode : string) (t : value) (entry : nat * value) :
  is_total t →
  is_total (next_total results model mode t entry)
  ∧ total_float (next_total results model mode t entry)
    = match trial_cost results (trial_key entry.1 entry.2 model mode) with
      | Some x => F64.add (total_float t) x
      | None => total_float t
      end.
Proof.
  intros Ht. unfold next_total, add_cost, trial.
  rewrite <- float_field_cost.
  destruct (Py.float _) as [x|e]; cbn [bind try_except Exception ok_or].
  - rewrite add_total by done. simpl. split; [right; eauto | done].
  - done.
Qed.

Lemma totals_cost (results : gmap string value) (model : value)
    (mode : string) (l : list (nat * value)) (t : value) :
  is_total t →
  is_total (foldl (next_total results model mode) t l)
  ∧ total_float (foldl (next_total results model mode) t l)
    = foldl F64.add (total_float t) (trial_costs results model mode l).
Proof.
  revert t. induction l as [|entry l IH]; intros t Ht; [done|].
  destruct (next_total_cost results model mode t entry Ht) as [Ht' Hf].
  destruct (IH _ Ht') as [IH1 IH2]. simpl. split; [done|].
  rewrite IH2, Hf. unfold trial_costs. simpl.
  by destruct (trial_cost results _).
Qed.

(** The table of a model in closed form. *)
Lemma model_section_eq (results : gmap string value) (labels : list value)
    (lines0 : list string) (s : string) :
  model_section results labels lines0 (VStr s)
  = Ok (lines0 ++ ["## " +:+ Text.title s; ""] ++ table_header
          ++ map (row results (VStr s)) (enumerate labels)
          ++ [""; total_line
                    (F64.format_f 4 (float_sum
                       (trial_costs results (VStr s) "with-mcp" (enumerate labels))))
                    (F64.format_f 4 (float_sum
                       (trial_costs results (VStr s) "without-mcp" (enumerate labels))));
              ""]).
Proof.
  unfold model_section. cbn [Py.title bind]. rewrite table_rows. cbn [bind].
  cbn [lines total_mcp_cost total_nomcp_cost].
  destruct (totals_cost results (VStr s) "with-mcp" (enumerate labels) (VInt 0))
    as [Hm1 Hm2]; [by left|].
  destruct (totals_cost results (VStr s) "without-mcp" (enumerate labels) (VInt 0))
    as [Hn1 Hn2]; [by left|].
  rewrite !format_total by done. cbn [bind]. rewrite Hm2, Hn2.
  unfold float_sum. cbn [total_float].
  by rewrite <- !app_assoc.
Qed.

Lemma length_enumerate_from {A : Type} (i : nat) (l : list A) :
  length (enumerate_from i l) = length l.
Proof. revert i. induction l as [|x l IH]; intros i; simpl; [done | by rewrite IH]. Qed.

(** C2, as stated, fails: the total is not the exact sum. With the costs
    0.00015 and 0.0001 of two prompts, the exact sum of the two stored
    numbers lies between 0.00015 and 0.00025, which is 0.0002 to four
    decimals, while the float sum is rounded up to at least 0.00025 and
    the total line shows 0.0003. *)
Lemma total_cost_not_exact :
  trial_costs small_costs_results (VStr "m") "with-mcp" (enumerate [VStr "a"; VStr "b"])
  = [F64.of_decimal false 15 (-5); F64.of_decimal false 1 (-4)]
  ∧ Qle_bool (Qmake 15 100000)
      (exact_sum [F64.of_decimal false 15 (-5); F64.of_decimal false 1 (-4)]) = true
  ∧ Qle_bool (Qmake 25 100000)
      (exact_sum [F64.of_decimal false 15 (-5); F64.of_decimal false 1 (-4)]) = false
  ∧ Qle_bool (Qmake 25 100000)
      (exact_value
         (float_sum [F64.of_decimal false 15 (-5); F64.of_decimal false 1 (-4)])) = true
  ∧ model_section small_costs_results [VStr "a"; VStr "b"] [] (VStr "m")
    = Ok (["## M"; ""] ++ table_header
            ++ ["| 1 | a | 0 | 0 | $0.0001 | N/A | N/A | N/A | N/A | N/A |";
                "| 2 | b | 0 | 0 | $0.0001 | N/A | N/A | N/A | N/A | N/A |"; "";
                "**Total cost:** MCP = $0.0003, No-MCP = $0.0000"; ""]).
Proof. by vm_compute. Qed.

(** C2, amended. For every model, both totals of its [Total cost] line are
    the sums in binary64 float arithmetic, from 0 and in the order of the
    prompts, of the [total_cost_usd] values of its trials in that mode,
    over all prompts, shown with four decimals; a prompt whose record is
    missing, or whose value does not read as a number, adds nothing. *)
Theorem total_cost_is_sum (results : gmap string value) (labels : list value)
    (lines0 : list string) (s : string) :
  ∃ rows,
    length rows = length labels
    ∧ model_section results labels lines0 (VStr s)
      = Ok (lines0 ++ ["## " +:+ Text.title s; ""] ++ table_header ++ rows
              ++ [""; total_line
                        (F64.format_f 4 (float_sum
                           (trial_costs results (VStr s) "with-mcp" (enumerate labels))))
                        (F64.format_f 4 (float_sum
                           (trial_costs results (VStr s) "without-mcp" (enumerate labels))));
                  ""]).
Proof.
  exists (map (row results (VStr s)) (enumerate labels)). split.
  - rewrite length_map. apply length_enumerate_from.
  - apply model_section_eq.
Qed.

(** ** The summary in closed form *)

Lemma model_sections_eq (results : gmap string value) (labels : list value)
    (ss : list string) (lines0 : list string) :
  for_each (map VStr ss) (model_section results labels) lines0
  = Ok (lines0 ++ concat (map (model_table results labels) ss)).
Proof.
  revert lines0. induction ss as [|s ss IH]; intros lines0; simpl.
  - by rewrite app_nil_r.
  - rewrite model_section_eq. cbn [bind]. rewrite IH.
    unfold model_table. by rewrite <- !app_assoc.
Qed.

Lemma transcript_eq (run_dir : string) (fs : gmap string file) (idx : nat)
    (label model : value) (lines0 : list string) (mode : string) :
  transcript run_dir fs idx label model lines0 mode
  = Ok (lines0
          ++ transcript_block
               (if String.eqb mode "with-mcp" then "WITH MCP" else "WITHOUT MCP")
               (answer run_dir fs (trial_key idx label model mode))).
Proof.
  unfold transcript, answer.
  by destruct (fs_read fs _) as [text|e].
Qed.

Lemma answer_section_eq (run_dir : string) (fs : gmap string file) (s : string)
    (lines0 : list string) (entry : nat * value) :
  answer_section run_dir fs (VStr s) lines0 entry
  = Ok (lines0 ++ answer_block run_dir fs s entry).
Proof.
  destruct entry as [idx label]. unfold answer_section, answer_block.
  cbn [Py.title bind for_each]. rewrite !transcript_eq. cbn [bind].
  rewrite transcript_eq. cbn [bind String.eqb Ascii.eqb Bool.eqb fst snd].
  by rewrite <- !app_assoc.
Qed.

Lemma answer_sections_eq (run_dir : string) (fs : gmap string file) (s : string)
    (l : list (nat * value)) (lines0 : list string) :
  for_each l (answer_section run_dir fs (VStr s)) lines0
  = Ok (lines0 ++ concat (map (answer_block run_dir fs s) l)).
Proof.
  revert lines0. induction l as [|entry l IH]; intros lines0; simpl.
  - by rewrite app_nil_r.
  - rewrite answer_section_eq. cbn [bind]. rewrite IH. by rewrite <- !app_assoc.
Qed.

Lemma answers_eq (run_dir : string) (fs : gmap string file)
    (labels : list value) (ss : list string) (lines0 : list string) :
  for_each (map VStr ss)
    (λ lines0 model,
       for_each (enumerate labels) (answer_section run_dir fs model) lines0)
    lines0
  = Ok (lines0
          ++ concat (map (λ s, concat (map (answer_block run_dir fs s)
                                            (enumerate labels))) ss)).
Proof.
  revert lines0. induction ss as [|s ss IH]; intros lines0; simpl.
  - by rewrite app_nil_r.
  - rewrite answer_sections_eq. cbn [bind]. rewrite IH. by rewrite <- !app_assoc.
Qed.

Lemma summary_lines_eq (run_dir : string) (fs : gmap string file)
    (results : gmap string value) (meta : metadata) (ss : list string) :
  Py.iter (models meta) = Ok (map VStr ss) →
  summary_lines run_dir fs results meta = Ok (report run_dir fs results meta ss).
Proof.
  intros Hms. unfold summary_lines, report. rewrite Hms. cbn [bind].
  rewrite model_sections_eq. cbn [bind]. rewrite answers_eq.
  by rewrite <- !app_assoc.
Qed.

(** ** Loading the results *)

Lemma load_result_eq (fs : gmap string file) (results : gmap string value)
    (f : string) :
  load_result fs results f = Ok (store fs results f).
Proof.
  unfold load_result, store, loaded.
  destruct (String.eqb _ _); [done|].
  by destruct (fs_json fs f).
Qed.

Lemma for_each_load (fs : gmap string file) (l : list string)
    (results : gmap string value) :
  for_each l (load_result fs) results = Ok (foldl (store fs) results l).
Proof.
  revert results. induction l as [|f l IH]; intros results; simpl; [done|].
  rewrite load_result_eq. apply IH.
Qed.

Lemma load_results_eq (fs : gmap string file) (ls : list string) :
  load_results fs ls = Ok (foldl (store fs) ∅ (sorted ls)).
Proof. apply for_each_load. Qed.

Lemma store_other (fs : gmap string file) (l : list string)
    (results : gmap string value) (key : string) :
  (∀ f, f ∈ l → result_name f ≠ key) →
  foldl (store fs) results l !! key = results !! key.
Proof.
  revert results. induction l as [|f l IH]; intros results Hl; simpl; [done|].
  rewrite IH by (intros g Hg; apply Hl; by right).
  unfold store. destruct (String.eqb _ _); [done|].
  apply lookup_insert_ne, Hl. by left.
Qed.

Lemma elem_of_sorted (ls : list string) (f : string) : f ∈ sorted ls ↔ f ∈ ls.
Proof. unfold sorted. by rewrite merge_sort_Permutation. Qed.

(** ** What the summary depends on *)

Lemma elem_of_trial_keys (meta : metadata) (ms : list value) (model : value)
    (entry : nat * value) (mode : string) :
  Py.iter (models meta) = Ok ms → model ∈ ms →
  entry ∈ enumerate (labels meta) → mode ∈ modes →
  trial_key entry.1 entry.2 model mode ∈ trial_keys meta.
Proof.
  intros Hms Hmodel Hentry Hmode. unfold trial_keys. rewrite Hms.
  apply list_elem_of_In, in_concat. eexists. split.
  { apply in_map_iff. exists model. split; [done | by apply list_elem_of_In]. }
  apply in_concat. eexists. split.
  { apply in_map_iff. exists entry. split; [done | by apply list_elem_of_In]. }
  apply in_map_iff. exists mode. split; [done | by apply list_elem_of_In].
Qed.

Lemma trial_ext (results results' : gmap string value) (model : value)
    (mode : string) (entry : nat * value) :
  results' !! trial_key entry.1 entry.2 model mode
  = results !! trial_key entry.1 entry.2 model mode →
  trial results' model mode entry = trial results model mode entry.
Proof. unfold trial, results_get. by intros ->. Qed.

Lemma table_row_ext (results results' : gmap string value) (model : value)
    (st : table_state) (entry : nat * value) :
  (∀ mode, mode ∈ modes →
     results' !! trial_key entry.1 entry.2 model mode
     = results !! trial_key entry.1 entry.2 model mode) →
  table_row results' model st entry = table_row results model st entry.
Proof.
  intros H. rewrite !table_row_eq. unfold row, next_total.
  rewrite !(trial_ext results results'); [done|apply H..]; set_solver.
Qed.

Lemma model_section_ext (results results' : gmap string value)
    (labels : list value) (lines0 : list string) (model : value) :
  (∀ entry mode, entry ∈ enumerate labels → mode ∈ modes →
     results' !! trial_key entry.1 entry.2 model mode
     = results !! trial_key entry.1 entry.2 model mode) →
  model_section results' labels lines0 model
  = model_section results labels lines0 model.
Proof.
  intros H. unfold model_section. destruct (Py.title model) as [heading|e]; [|done].
  cbn [bind]. f_equal. apply for_each_ext. intros st entry Hentry.
  apply table_row_ext. intros mode Hmode. by apply H.
Qed.

Lemma answer_section_ext (run_dir : string) (fs fs' : gmap string file)
    (model : value) (lines0 : list string) (entry : nat * value) :
  (∀ key, fs_read fs' (Path.join run_dir (key +:+ ".txt"))
          = fs_read fs (Path.join run_dir (key +:+ ".txt"))) →
  answer_section run_dir fs' model lines0 entry
  = answer_section run_dir fs model lines0 entry.
Proof.
  intros H. destruct entry as [idx label]. unfold answer_section.
  destruct (Py.title model) as [heading|e]; [|done]. cbn [bind].
  apply for_each_ext. intros lines1 mode _. unfold transcript. by rewrite H.
Qed.

Lemma summary_lines_ext (run_dir : string) (fs fs' : gmap string file)
    (results results' : gmap string value) (meta : metadata) :
  (∀ key, key ∈ trial_keys meta → results' !! key = results !! key) →
  (∀ key, fs_read fs' (Path.join run_dir (key +:+ ".txt"))
          = fs_read fs (Path.join run_dir (key +:+ ".txt"))) →
  summary_lines run_dir fs' results' meta = summary_lines run_dir fs results meta.
Proof.
  intros Hres Hfs. unfold summary_lines.
  destruct (Py.iter (models meta)) as [ms|e] eqn:Hms; [|done]. cbn [bind].
  rewrite (for_each_ext ms (model_section results' (labels meta))
             (model_section results (labels meta))).
  2: { intros lines0 model Hmodel. apply model_section_ext.
       intros entry mode Hentry Hmode. apply Hres.
       by apply (elem_of_trial_keys meta ms). }
  destruct (for_each ms _ _) as [lines1|e]; [|done]. cbn [bind].
  apply for_each_ext. intros lines0 model _.
  apply for_each_ext. intros lines2 entry _.
  by apply answer_section_ext.
Qed.

Lemma load_meta_ext (run_dir : string) (fs fs' : gmap string file) :
  fs_json fs' (meta_path run_dir) = fs_json fs (meta_path run_dir) →
  load_meta run_dir fs' = load_meta run_dir fs.
Proof. unfold load_meta, meta_path. by intros ->. Qed.

Lemma collect_model_ext (results results' : gmap string value)
    (labels : list value) (model : value) :
  (∀ entry mode, entry ∈ enumerate labels → mode ∈ modes →
     results' !! trial_key entry.1 entry.2 model mode
     = results !! trial_key entry.1 entry.2 model mode) →
  collect_model results' labels model = collect_model results labels model.
Proof.
  intros H. unfold collect_model. apply for_each_ext.
  intros mm [idx label] Hentry. unfold collect_prompt, collect_trial, results_get.
  pose proof (H (idx, label) "with-mcp" Hentry) as H1.
  pose proof (H (idx, label) "without-mcp" Hentry) as H2.
  cbn [fst snd] in H1, H2. rewrite H1, H2; [done | set_solver..].
Qed.

Lemma charts_ext (h : bool) (results results' : gmap string value)
    (meta : metadata) :
  (∀ key, key ∈ trial_keys meta → results' !! key = results !! key) →
  charts h results' meta = charts h results meta.
Proof.
  intros Hres. unfold charts. destruct h; [|done].
  destruct (Py.iter (models meta)) as [ms|e] eqn:Hms; [|done]. cbn [bind].
  rewrite (map_exc_ext (collect_model results' (labels meta))
             (collect_model results (labels meta))); [done|].
  intros model Hmodel. apply collect_model_ext.
  intros entry mode Hentry Hmode. apply Hres.
  by apply (elem_of_trial_keys meta ms).
Qed.

(** A run reads the directory through the metadata descriptor, the trial
    records stored under the composite keys, and the transcripts. *)
Lemma main_ext (run_dir : string) (fs fs' : gmap string file)
    (ls ls' : list string) (h : bool) (w : writer) :
  fs_json fs' (meta_path run_dir) = fs_json fs (meta_path run_dir) →
  (∀ meta key,
     load_meta run_dir fs = Ok meta → key ∈ trial_keys meta →
     foldl (store fs') ∅ (sorted ls') !! key
     = foldl (store fs) ∅ (sorted ls) !! key) →
  (∀ key, fs_read fs' (Path.join run_dir (key +:+ ".txt"))
          = fs_read fs (Path.join run_dir (key +:+ ".txt"))) →
  main run_dir fs' ls' h w = main run_dir fs ls h w.
Proof.
  intros Hmeta Hres Hfs. unfold main. rewrite (load_meta_ext _ _ _ Hmeta).
  destruct (load_meta run_dir fs) as [meta|e]; [|done].
  specialize (λ key, Hres meta key eq_refl).
  rewrite !load_results_eq. cbn [bind].
  rewrite (summary_lines_ext run_dir fs fs' _ _ meta Hres Hfs).
  destruct (summary_lines run_dir fs _ meta) as [lines1|e]; [|done]. cbn [bind].
  destruct (w _ _); [|done].
  by rewrite (charts_ext h _ _ meta Hres).
Qed.

Lemma main_summary (run_dir : string) (fs : gmap string file)
    (ls : list string) (h : bool) (w : writer) :
  summary_md (main run_dir fs ls h w)
  = match summary run_dir fs ls with
    | Ok text => written w (summary_path run_dir) text
    | Raise _ => None
    end.
Proof.
  unfold main, summary, written, summary_path.
  destruct (load_meta run_dir fs) as [meta|e]; [|done].
  rewrite load_results_eq. cbn [bind].
  destruct (summary_lines run_dir fs _ meta) as [lines1|e]; [|done]. cbn [bind].
  destruct (w _ _); [|done].
  by destruct (charts h _ meta).
Qed.

(** ** Paths *)

Lemma strip_prefix_app (pre n : string) :
  Text.strip_prefix pre (pre +:+ n) = Some n.
Proof.
  induction pre as [|a pre IH]; [by destruct n|].
  simpl. by rewrite Ascii.eqb_refl.
Qed.

Lemma strip_prefix_Some (pre s n : string) :
  Text.strip_prefix pre s = Some n → s = pre +:+ n.
Proof.
  revert s. induction pre as [|a pre IH]; intros s.
  - destruct s; intros [= <-]; reflexivity.
  - destruct s as [|b s]; simpl; [done|].
    destruct (Ascii.eqb a b) eqn:Hab; [|done].
    apply Ascii.eqb_eq in Hab as ->. intros H. rewrite (IH s H). reflexivity.
Qed.

Lemma ends_with_app (a suf : string) : Text.ends_with suf (a +:+ suf) = true.
Proof.
  induction a as [|c a IH].
  - destruct suf; simpl; [done|]. by rewrite Ascii.eqb_refl, String.eqb_refl.
  - change (String c a +:+ suf) with (String c (a +:+ suf)).
    cbn [Text.ends_with]. rewrite IH. apply orb_true_r.
Qed.

Lemma glob_matches_join (run_dir path : string) :
  glob_matches run_dir path = true →
  ∃ name, path = Path.join run_dir name ∧ Text.ends_with ".json" name = true.
Proof.
  unfold glob_matches.
  destruct (Text.strip_prefix _ path) as [name|] eqn:Hp; [|done].
  intros H. exists name. split; [by apply strip_prefix_Some|].
  by apply andb_prop in H as [_ ?].
Qed.

Lemma join_inj (run_dir a b : string) :
  Path.join run_dir a = Path.join run_dir b → a = b.
Proof. unfold Path.join. apply String.app_inj. Qed.

(** A path the glob matches is neither of the files a run writes. *)
Lemma glob_not_output (run_dir path : string) :
  glob_matches run_dir path = true →
  path ≠ summary_path run_dir ∧ path ≠ chart_path run_dir.
Proof.
  intros Hp. destruct (glob_matches_join _ _ Hp) as (name & -> & Hname).
  split; intros Heq%join_inj; by rewrite Heq in Hname.
Qed.

(** Nor is the path of a transcript. *)
Lemma txt_not_output (run_dir key : string) :
  Path.join run_dir (key +:+ ".txt") ≠ summary_path run_dir
  ∧ Path.join run_dir (key +:+ ".txt") ≠ chart_path run_dir.
Proof.
  pose proof (ends_with_app key ".txt") as H.
  split; intros Heq%join_inj; rewrite Heq in H; done.
Qed.

Lemma meta_not_output (run_dir : string) :
  meta_path run_dir ≠ summary_path run_dir
  ∧ meta_path run_dir ≠ chart_path run_dir.
Proof. split; intros ?%join_inj; done. Qed.

(** ** Sorting the listing *)

Lemma sorted_Permutation (ls ls' : list string) :
  ls ≡ₚ ls' → sorted ls = sorted ls'.
Proof.
  intros Hp. unfold sorted.
  apply (StronglySorted_unique String.le);
    [apply StronglySorted_merge_sort; apply _ ..|].
  by rewrite !merge_sort_Permutation.
Qed.

Lemma foldl_store_ext (fs fs' : gmap string file) (l : list string)
    (results : gmap string value) :
  (∀ f, f ∈ l → loaded fs' f = loaded fs f) →
  foldl (store fs') results l = foldl (store fs) results l.
Proof.
  revert results. induction l as [|f l IH]; intros results H; simpl; [done|].
  rewrite IH by (intros g Hg; apply H; by right).
  unfold store. by rewrite (H f) by left.
Qed.

(** ** Running twice *)

(** C7. Two runs on a run directory that is unchanged between them but for
    the files a run writes ([summary.md] and [chart.png]) write the same
    text to [summary.md], whatever the order in which the file system lists
    the directory and whether or not charts can be drawn. *)
Theorem summary_idempotent (run_dir : string) (fs fs' : gmap string file)
    (ls ls' : list string) (h h' : bool) (w : writer) :
  glob_listing run_dir fs ls →
  glob_listing run_dir fs' ls' →
  (∀ p, p ≠ summary_path run_dir → p ≠ chart_path run_dir → fs' !! p = fs !! p) →
  summary_md (main run_dir fs' ls' h' w) = summary_md (main run_dir fs ls h w).
Proof.
  intros (_ & Hnd & Hls) (_ & Hnd' & Hls') Hfs.
  assert (∀ p, glob_matches run_dir p = true → fs' !! p = fs !! p) as Hglob.
  { intros p Hp. destruct (glob_not_output _ _ Hp). by apply Hfs. }
  assert (sorted ls' = sorted ls) as Hsorted.
  { apply sorted_Permutation, NoDup_Permutation; [done..|].
    intros p. rewrite Hls, Hls'. split; intros [Hp Hg]; (split; [|done]).
    - by rewrite <- Hglob.
    - by rewrite Hglob. }
  rewrite (main_summary _ _ _ h'), <- (main_summary _ _ _ h). f_equal.
  apply main_ext.
  - unfold fs_json. rewrite Hfs; [done | apply meta_not_output..].
  - intros _ key _ _. rewrite Hsorted. f_equal. apply foldl_store_ext.
    intros f Hf. apply elem_of_sorted, Hls in Hf. unfold loaded, fs_json.
    rewrite Hglob; [done|]. by destruct Hf.
  - intros key. unfold fs_read. rewrite Hfs; [done | apply txt_not_output..].
Qed.

Lemma example_listing : glob_listing "run" example_fs example_ls.
Proof.
  split; [done|].
  split; [apply (bool_decide_unpack (NoDup example_ls)); by vm_compute|].
  intros p. unfold example_ls, example_fs. split.
  - intros Hp. repeat (apply elem_of_cons in Hp as [->|Hp]); [done..|].
    by apply elem_of_nil in Hp.
  - intros [Hp Hg]. repeat apply lookup_insert_is_Some in Hp as [<-|[? Hp]];
      [set_solver..| |].
    + done.
    + by apply is_Some_None in Hp.
Qed.

Lemma example_listing_after (text : string) :
  glob_listing "run" (example_fs_after text) (reverse example_ls).
Proof.
  split; [done|].
  split; [apply (bool_decide_unpack (NoDup (reverse example_ls))); by vm_compute|].
  intros p. unfold example_ls, example_fs_after, example_fs. split.
  - intros Hp. repeat (apply elem_of_cons in Hp as [->|Hp]); [done..|].
    by apply elem_of_nil in Hp.
  - intros [Hp Hg]. repeat apply lookup_insert_is_Some in Hp as [<-|[? Hp]];
      [done | done | set_solver.. | |].
    + done.
    + by apply is_Some_None in Hp.
Qed.

Lemma example_unchanged (text : string) (p : string) :
  p ≠ summary_path "run" → p ≠ chart_path "run" →
  example_fs_after text !! p = example_fs !! p.
Proof.
  intros Hs Hc. unfold example_fs_after.
  rewrite lookup_insert_ne by done. by rewrite lookup_insert_ne.
Qed.

Lemma summary_idempotent_witness :
  summary_md (main "run" (example_fs_after "(the first summary)")
                (reverse example_ls) false writes_all)
  = summary_md (main "run" example_fs example_ls true writes_all).
Proof.
  apply summary_idempotent.
  - apply example_listing.
  - apply example_listing_after.
  - apply example_unchanged.
Defined.

(** ** Missing and unparsable trial files *)

Lemma empty_record_cells :
  tokens_cell (VDict []) = "0" ∧ cost_cell (VDict []) = NA
  ∧ time_cell (VDict []) = NA ∧ turns_cell (VDict []) = NA.
Proof. by vm_compute. Qed.

Lemma summary_eq (run_dir : string) (fs : gmap string file) (ls : list string)
    (meta : metadata) (ss : list string) :
  load_meta run_dir fs = Ok meta →
  Py.iter (models meta) = Ok (map VStr ss) →
  summary run_dir fs ls
  = Ok (Text.join newline
          (report run_dir fs (foldl (store fs) ∅ (sorted ls)) meta ss)).
Proof.
  intros Hmeta Hms. unfold summary. rewrite Hmeta, load_results_eq. cbn [bind].
  by rewrite (summary_lines_eq _ _ _ _ ss Hms).
Qed.

Lemma row_in_report (run_dir : string) (fs : gmap string file)
    (results : gmap string value) (meta : metadata) (ss : list string)
    (s : string) (entry : nat * value) :
  s ∈ ss → entry ∈ enumerate (labels meta) →
  row results (VStr s) entry ∈ report run_dir fs results meta ss.
Proof.
  intros Hs Hentry. unfold report.
  apply elem_of_app. right. apply elem_of_app. left.
  apply list_elem_of_In, in_concat. exists (model_table results (labels meta) s).
  split; [apply in_map, list_elem_of_In, Hs|].
  unfold model_table. apply list_elem_of_In.
  apply elem_of_app. right. apply elem_of_app. right. apply elem_of_app. left.
  apply list_elem_of_In, in_map, list_elem_of_In, Hentry.
Qed.

(** C5, as stated, fails: with no trial file at all, the row of the prompt
    shows 0, not the sentinel, in its two token cells. *)
Lemma missing_trial_tokens_zero :
  summary_md (main "run" meta_only_fs ["run/prompts.json"] false writes_all)
  = Some (one_row_summary "| 1 | a | 0 | 0 | N/A | N/A | N/A | N/A | N/A | N/A |"
            "0.0000" "N/A").
Proof. by vm_compute. Qed.

(** C5, amended. When the metadata loads and its models are strings, the
    summary is what the write of its text leaves (the text, unless the
    write itself raises) and has a row for every model and prompt; and for
    every prompt, model and mode under whose key no listed file is stored,
    the row shows 0 in the token cell of that mode and the sentinel in its
    cost, time and turns cells. *)
Theorem missing_trial_cells (run_dir : string) (fs : gmap string file)
    (ls : list string) (h : bool) (w : writer) (meta : metadata)
    (ss : list string) :
  load_meta run_dir fs = Ok meta →
  Py.iter (models meta) = Ok (map VStr ss) →
  ∃ results,
    load_results fs ls = Ok results
    ∧ summary_md (main run_dir fs ls h w)
      = written w (summary_path run_dir)
          (Text.join newline (report run_dir fs results meta ss))
    ∧ (∀ s entry, s ∈ ss → entry ∈ enumerate (labels meta) →
         row results (VStr s) entry ∈ report run_dir fs results meta ss)
    ∧ (∀ s entry mode,
         (∀ f, f ∈ ls → result_name f ≠ trial_key entry.1 entry.2 (VStr s) mode) →
         tokens_cell (trial results (VStr s) mode entry) = "0"
         ∧ cost_cell (trial results (VStr s) mode entry) = NA
         ∧ time_cell (trial results (VStr s) mode entry) = NA
         ∧ turns_cell (trial results (VStr s) mode entry) = NA).
Proof.
  intros Hmeta Hms. exists (foldl (store fs) ∅ (sorted ls)).
  split; [apply load_results_eq|]. split; [|split].
  - by rewrite main_summary, (summary_eq _ _ _ meta ss).
  - intros s entry. apply row_in_report.
  - intros s entry mode Hfiles. unfold trial, results_get.
    rewrite store_other.
    + rewrite lookup_empty. apply empty_record_cells.
    + intros f Hf. by apply Hfiles, elem_of_sorted.
Qed.

Lemma example_load_meta :
  load_meta "run" example_fs = Ok (Metadata (VList [VStr "m"]) [VStr "a"] (VStr "t")).
Proof. by vm_compute. Qed.

Lemma missing_trial_cells_witness :
  ∃ results,
    load_results example_fs example_ls = Ok results
    ∧ summary_md (main "run" example_fs example_ls true writes_all)
      = written writes_all (summary_path "run")
          (Text.join newline
             (report "run" example_fs results
                (Metadata (VList [VStr "m"]) [VStr "a"] (VStr "t")) ["m"]))
    ∧ (∀ s entry, s ∈ ["m"] → entry ∈ enumerate [VStr "a"] →
         row results (VStr s) entry
         ∈ report "run" example_fs results
             (Metadata (VList [VStr "m"]) [VStr "a"] (VStr "t")) ["m"])
    ∧ (∀ s entry mode,
         (∀ f, f ∈ example_ls → result_name f ≠ trial_key entry.1 entry.2 (VStr s) mode) →
         tokens_cell (trial results (VStr s) mode entry) = "0"
         ∧ cost_cell (trial results (VStr s) mode entry) = NA
         ∧ time_cell (trial results (VStr s) mode entry) = NA
         ∧ turns_cell (trial results (VStr s) mode entry) = NA).
Proof.
  apply (missing_trial_cells "run" example_fs example_ls true writes_all
           (Metadata (VList [VStr "m"]) [VStr "a"] (VStr "t")) ["m"]).
  - apply example_load_meta.
  - reflexivity.
Defined.

(** C3, as stated, fails: with a trial file that does not parse, the row
    shows 0, not the sentinel, in the token cell of that trial. *)
Lemma unparsable_trial_tokens_zero :
  fs_json unparsable_fs "run/01-a-m-with-mcp.json" = Raise ValueError
  ∧ summary_md
      (main "run" unparsable_fs ["run/prompts.json"; "run/01-a-m-with-mcp.json"] false
         writes_all)
    = Some (one_row_summary "| 1 | a | 0 | 0 | N/A | N/A | N/A | N/A | N/A | N/A |"
            "0.0000" "N/A").
Proof. by vm_compute. Qed.

(** C3, amended. A run ends with the exception of the metadata load when
    the descriptor is absent or does not parse. A trial file that does not
    parse is read as the empty record: the run is the same as if the file
    held the empty mapping, and the cells of the empty record are 0 for
    the tokens and the sentinel for cost, time and turns. *)
Theorem only_metadata_is_fatal :
  (∀ run_dir fs ls h w e,
     fs_json fs (meta_path run_dir) = Raise e →
     main run_dir fs ls h w = Outcome None None (Some e))
  ∧ (∀ run_dir fs ls h w p text e,
       p ≠ meta_path run_dir →
       main run_dir (<[p := File text (Raise e)]> fs) ls h w
       = main run_dir (<[p := File text (Ok (VDict []))]> fs) ls h w)
  ∧ (tokens_cell (VDict []) = "0" ∧ cost_cell (VDict []) = NA
     ∧ time_cell (VDict []) = NA ∧ turns_cell (VDict []) = NA).
Proof.
  split; [|split].
  - intros run_dir fs ls h w e He. unfold main, load_meta.
    fold (meta_path run_dir). by rewrite He.
  - intros run_dir fs ls h w p text e Hp. apply main_ext.
    + unfold fs_json. by rewrite !lookup_insert_ne.
    + intros _ key _ _. f_equal. apply foldl_store_ext. intros f _.
      unfold loaded, fs_json. destruct (decide (p = f)) as [->|Hne].
      * by rewrite !lookup_insert_eq.
      * by rewrite !lookup_insert_ne.
    + intros key. unfold fs_read. destruct (decide (p = Path.join run_dir (key +:+ ".txt"))) as [->|Hne].
      * by rewrite !lookup_insert_eq.
      * by rewrite !lookup_insert_ne.
  - apply empty_record_cells.
Qed.

Lemma only_metadata_is_fatal_witness :
  main "run" ∅ [] true writes_all = Outcome None None (Some OSError)
  ∧ main "run" (<["run/01-a-m-with-mcp.json" := File (Ok "{") (Raise ValueError)]> meta_only_fs)
      ["run/prompts.json"; "run/01-a-m-with-mcp.json"] true writes_all
    = main "run" (<["run/01-a-m-with-mcp.json" := File (Ok "{") (Ok (VDict []))]> meta_only_fs)
        ["run/prompts.json"; "run/01-a-m-with-mcp.json"] true writes_all.
Proof.
  split.
  - apply (proj1 only_metadata_is_fatal). reflexivity.
  - apply (proj1 (proj2 only_metadata_is_fatal)). by vm_compute.
Defined.

(** ** Files that are not trial files *)

(** C9 at a failing input: the file [01-a-m-with-mcp.json.json] is not
    named after a composite key, yet it is stored under the key of the
    trial file [01-a-m-with-mcp.json], is read after it, and replaces its
    record in the summary. *)
Lemma stray_file_changes_summary :
  trial_keys (Metadata (VList [VStr "m"]) [VStr "a"] (VStr "t"))
  = ["01-a-m-with-mcp"; "01-a-m-without-mcp"]
  ∧ Path.basename "run/01-a-m-with-mcp.json.json" = "01-a-m-with-mcp.json.json"
  ∧ result_name "run/01-a-m-with-mcp.json.json" = "01-a-m-with-mcp"
  ∧ summary_md (main "run" example_fs example_ls false writes_all)
    = Some (one_row_summary
              "| 1 | a | 175 | 0 | $1.5000 | N/A | 2.5s | N/A | 3 | N/A |"
              "1.5000" "It works.")
  ∧ summary_md (main "run" stray_fs stray_ls false writes_all)
    = Some (one_row_summary
              "| 1 | a | 0 | 0 | N/A | N/A | N/A | N/A | 99 | N/A |"
              "0.0000" "It works.").
Proof. by vm_compute. Qed.

Lemma last_char_ends_with (suf s : string) :
  Text.ends_with suf s = true → suf ≠ "" → last_char s = last_char suf.
Proof.
  intros H Hsuf. induction s as [|c s IH]; simpl in H.
  - rewrite orb_false_r in H. by apply String.eqb_eq in H.
  - apply orb_prop in H as [H|H]; [by apply String.eqb_eq in H as ->|].
    destruct s as [|c' s]; [|by apply IH].
    simpl in H. rewrite orb_false_r in H. by apply String.eqb_eq in H.
Qed.

Lemma txt_not_json (key : string) : Text.ends_with ".json" (key +:+ ".txt") = false.
Proof.
  destruct (Text.ends_with ".json" _) eqn:H; [|done].
  apply last_char_ends_with in H; [|done].
  rewrite (last_char_ends_with ".txt") in H; [done | apply ends_with_app | done].
Qed.

(** The path of a transcript is not a path the glob matches. *)
Lemma txt_not_glob (run_dir key : string) :
  glob_matches run_dir (Path.join run_dir (key +:+ ".txt")) = false.
Proof.
  unfold glob_matches, Path.join. rewrite strip_prefix_app, txt_not_json.
  apply andb_false_r.
Qed.

Lemma store_lookup_congr (fs : gmap string file) (l : list string)
    (acc acc' : gmap string value) (key : string) :
  acc !! key = acc' !! key →
  foldl (store fs) acc l !! key = foldl (store fs) acc' l !! key.
Proof.
  revert acc acc'. induction l as [|f l IH]; intros acc acc' H; simpl; [done|].
  apply IH. unfold store. destruct (String.eqb _ _); [done|].
  by rewrite !lookup_insert, H.
Qed.

Lemma store_skip (fs : gmap string file) (acc : gmap string value)
    (p key : string) :
  result_name p ≠ key → store fs acc p !! key = acc !! key.
Proof.
  intros H. unfold store. destruct (String.eqb _ _); [done|].
  by apply lookup_insert_ne.
Qed.

Lemma sorted_insert (ls ls' : list string) (p : string) :
  ls' ≡ₚ p :: ls →
  ∃ l1 l2, sorted ls' = l1 ++ p :: l2 ∧ sorted ls = l1 ++ l2.
Proof.
  intros Hp.
  assert (sorted ls' ≡ₚ p :: ls) as Hs by (unfold sorted; by rewrite merge_sort_Permutation).
  assert (p ∈ sorted ls') as Hin by (rewrite Hs; left).
  destruct (list_elem_of_split _ _ Hin) as (l1 & l2 & Heq).
  exists l1, l2. split; [done|].
  assert (StronglySorted String.le (sorted ls')) as Hsorted
    by (apply StronglySorted_merge_sort; apply _).
  rewrite Heq in Hs, Hsorted.
  apply (StronglySorted_unique String.le).
  - apply StronglySorted_merge_sort; apply _.
  - apply StronglySorted_app in Hsorted as (H12 & H1 & H2).
    apply StronglySorted_cons in H2 as [_ H2].
    apply StronglySorted_app. split; [|done].
    intros x1 x2 Hx1 Hx2. apply H12; [done | by right].
  - unfold sorted. rewrite merge_sort_Permutation.
    rewrite <- Permutation_middle in Hs. symmetry.
    by apply Permutation_cons_inv in Hs.
Qed.

(** Adding to the run directory a [.json] file other than [prompts.json]
    whose key, as the script computes it (the base name with every [.json]
    removed), is none of the composite keys of the metadata leaves the run
    unchanged: the summary and the chart values are the same. *)
Theorem unrelated_file_ignored (run_dir : string) (fs : gmap string file)
    (ls ls' : list string) (h : bool) (w : writer) (p : string) (f : file) :
  glob_listing run_dir fs ls →
  glob_listing run_dir (<[p := f]> fs) ls' →
  fs !! p = None →
  glob_matches run_dir p = true →
  p ≠ meta_path run_dir →
  (∀ meta, load_meta run_dir fs = Ok meta → result_name p ∉ trial_keys meta) →
  main run_dir (<[p := f]> fs) ls' h w = main run_dir fs ls h w.
Proof.
  intros (_ & Hnd & Hls) (_ & Hnd' & Hls') Hnew Hglob Hmeta Hkey.
  assert (p ∉ ls) as Hp.
  { intros [Hsome _]%Hls. rewrite Hnew in Hsome. by apply is_Some_None in Hsome. }
  assert (ls' ≡ₚ p :: ls) as Hperm.
  { apply NoDup_Permutation; [done | by apply NoDup_cons|].
    intros x. rewrite Hls', elem_of_cons, Hls, lookup_insert_is_Some.
    split.
    - intros [[->|[? ?]] ?]; auto.
    - intros [->|[? ?]]; [auto|]. split; [|done].
      destruct (decide (p = x)); auto. }
  destruct (sorted_insert ls ls' p Hperm) as (l1 & l2 & Hs' & Hs).
  assert (∀ x, x ∈ l1 ++ l2 → loaded (<[p := f]> fs) x = loaded fs x) as Hload.
  { intros x Hx. unfold loaded, fs_json. rewrite lookup_insert_ne; [done|].
    intros ->. apply Hp. apply elem_of_sorted. by rewrite Hs. }
  apply main_ext.
  - unfold fs_json. by rewrite lookup_insert_ne.
  - intros meta key Hm Hk. rewrite Hs', Hs, !foldl_app. cbn [foldl].
    rewrite (foldl_store_ext fs (<[p := f]> fs) l1)
      by (intros x Hx; apply Hload, elem_of_app; by left).
    rewrite (foldl_store_ext fs (<[p := f]> fs) l2)
      by (intros x Hx; apply Hload, elem_of_app; by right).
    apply store_lookup_congr, store_skip.
    intros Heq. apply (Hkey meta Hm). by rewrite Heq.
  - intros key. unfold fs_read. rewrite lookup_insert_ne; [done|].
    intros ->. by rewrite txt_not_glob in Hglob.
Qed.

Lemma unrelated_listing :
  glob_listing "run" (<["run/notes.json" := text_file "notes"]> example_fs)
    ("run/notes.json" :: example_ls).
Proof.
  split; [done|].
  split; [apply (bool_decide_unpack (NoDup ("run/notes.json" :: example_ls))); by vm_compute|].
  intros p. unfold example_ls, example_fs. split.
  - intros Hp. repeat (apply elem_of_cons in Hp as [->|Hp]); [done..|].
    by apply elem_of_nil in Hp.
  - intros [Hp Hg]. repeat apply lookup_insert_is_Some in Hp as [<-|[? Hp]];
      [set_solver..| |].
    + done.
    + by apply is_Some_None in Hp.
Qed.

Lemma unrelated_file_ignored_witness :
  main "run" (<["run/notes.json" := text_file "notes"]> example_fs)
    ("run/notes.json" :: example_ls) true writes_all
  = main "run" example_fs example_ls true writes_all.
Proof.
  apply unrelated_file_ignored.
  - apply example_listing.
  - apply unrelated_listing.
  - reflexivity.
  - reflexivity.
  - by vm_compute.
  - intros meta. rewrite example_load_meta. intros [= <-].
    apply (bool_decide_unpack _). by vm_compute.
Defined.

(** ** Chart values *)

Lemma collect_metric_eq (d : value) (m : metric_lists) (mt : metric) :
  collect_metric d m mt
  = Ok match to_option (metric_value mt d) with
       | Some v => append_metric mt v m
       | None => m
       end.
Proof. unfold collect_metric. by destruct (metric_value mt d). Qed.

Lemma collect_trial_lists (results : gmap string value) (model : value)
    (idx : nat) (label : value) (mode : string) (m : metric_lists) :
  ∃ m',
    collect_trial results model idx label mode m = Ok m'
    ∧ ∀ mt, metric_list mt m'
            = metric_list mt m
                ++ option_list (to_option
                     (metric_value mt (trial results model mode (idx, label)))).
Proof.
  unfold collect_trial, trial. cbn [fst snd for_each].
  set (d := results_get results _).
  rewrite !collect_metric_eq. cbn [bind]. rewrite !collect_metric_eq. cbn [bind].
  rewrite !collect_metric_eq. cbn [bind]. rewrite !collect_metric_eq.
  eexists. split; [done|].
  intros mt. destruct mt;
    destruct (to_option (metric_value Cost d)), (to_option (metric_value Time d)),
      (to_option (metric_value Turns d)), (to_option (metric_value Tokens d));
    cbn [metric_list append_metric cost time turns tokens option_list];
    by rewrite ?app_nil_r.
Qed.

Lemma collect_entries_lists (results : gmap string value) (model : value)
    (entries : list (nat * value)) (mm : model_metrics) :
  ∃ mm',
    for_each entries (collect_prompt results model) mm = Ok mm'
    ∧ ∀ mt,
        metric_list mt (with_mcp mm')
        = metric_list mt (with_mcp mm)
            ++ omap (λ entry, to_option
                       (metric_value mt (trial results model "with-mcp" entry)))
                 entries
        ∧ metric_list mt (without_mcp mm')
          = metric_list mt (without_mcp mm)
              ++ omap (λ entry, to_option
                         (metric_value mt (trial results model "without-mcp" entry)))
                   entries.
Proof.
  revert mm. induction entries as [|[idx label] entries IH]; intros mm.
  - exists mm. split; [done|]. intros mt. by rewrite !app_nil_r.
  - cbn [for_each collect_prompt].
    destruct (collect_trial_lists results model idx label "with-mcp" (with_mcp mm))
      as (w & -> & Hw).
    destruct (collect_trial_lists results model idx label "without-mcp" (without_mcp mm))
      as (wo & -> & Hwo).
    cbn [bind]. destruct (IH (ModelMetrics w wo)) as (mm' & -> & Hmm').
    exists mm'. split; [done|]. intros mt.
    destruct (Hmm' mt) as [-> ->]. cbn [with_mcp without_mcp].
    rewrite Hw, Hwo, <- !app_assoc. cbn [omap list_omap].
    split; f_equal; by destruct (to_option _).
Qed.

Lemma collect_model_lists (results : gmap string value) (labels : list value)
    (model : value) :
  ∃ mm,
    collect_model results labels model = Ok mm
    ∧ ∀ mt,
        metric_list mt (with_mcp mm)
        = metric_values results labels model "with-mcp" mt
        ∧ metric_list mt (without_mcp mm)
          = metric_values results labels model "without-mcp" mt.
Proof.
  destruct (collect_entries_lists results model (enumerate labels)
              (ModelMetrics empty_lists empty_lists)) as (mm & H & Hmm).
  exists mm. split; [done|]. intros mt. destruct (Hmm mt) as [-> ->].
  by destruct mt.
Qed.

Lemma map_exc_map {A B C : Type} (f : B → exc C) (g : A → B) (l : list A) :
  map_exc f (map g l) = map_exc (λ x, f (g x)) l.
Proof. induction l as [|x l IH]; simpl; [done | by rewrite IH]. Qed.

Lemma collected_lists (results : gmap string value) (labels : list value)
    (model : value) (mt : metric) :
  collect_model results labels model = Ok (collected results labels model)
  ∧ metric_list mt (with_mcp (collected results labels model))
    = metric_values results labels model "with-mcp" mt
  ∧ metric_list mt (without_mcp (collected results labels model))
    = metric_values results labels model "without-mcp" mt.
Proof.
  unfold collected.
  destruct (collect_model_lists results labels model) as (mm & -> & Hlists).
  split; [done|]. apply Hlists.
Qed.

Lemma collect_models_eq (results : gmap string value) (labels : list value)
    (ms : list value) :
  map_exc (collect_model results labels) ms
  = Ok (map (collected results labels) ms).
Proof.
  induction ms as [|model ms IH]; [done|]. cbn [map_exc map].
  destruct (collected_lists results labels model Cost) as [-> _].
  by rewrite IH.
Qed.

Lemma chart_bars_eq (results : gmap string value) (labels : list value)
    (ms : list value) (config : string * metric) :
  chart_bars (map (collected results labels) ms) config
  = metric_bars results labels ms config.
Proof.
  destruct config as [title mt]. unfold chart_bars, metric_bars.
  rewrite !map_exc_map. cbn [fst snd].
  rewrite (map_exc_ext _
             (λ model, safe_avg (metric_values results labels model "with-mcp" mt)))
    by (intros model _; by destruct (collected_lists results labels model mt) as (_ & -> & _)).
  rewrite (map_exc_ext
             (λ x, safe_avg (metric_list mt (without_mcp (collected results labels x))))
             (λ model, safe_avg (metric_values results labels model "without-mcp" mt)))
    by (intros model _; by destruct (collected_lists results labels model mt) as (_ & _ & ->)).
  done.
Qed.






(** * Further properties of the script *)

(** ** [get] along a chain of keys *)

Lemma get_sentinel (keys : list string) : get (VStr NA) keys = Ok (VStr NA).
Proof. by destruct keys. Qed.

(** Looking up a chain of keys in one call is the same as looking up its
    first part and then the rest in what that returned: the sentinel, once
    returned, is what every further lookup returns. *)
Theorem get_app (d : value) (keys1 keys2 : list string) :
  get d (keys1 ++ keys2) = let* v := get d keys1 in get v keys2.
Proof.
  revert d. induction keys1 as [|k keys1 IH]; intros d.
  - cbn [app get bind]. destruct (Py.ne_empty_dict d) eqn:Hd; [done|].
    destruct d as [| | | | | |[|]]; try done.
    by rewrite get_empty, get_sentinel.
  - cbn [app get]. destruct (Py.is_dict d) eqn:Hd.
    + destruct d; try done. cbn [Py.dict_get bind]. apply IH.
    + cbn [bind]. by rewrite get_sentinel.
Qed.

(** [get] never returns the empty mapping, and never raises: what it
    returns is the sentinel or a value that is not the empty mapping. *)
Theorem get_never_empty (d : value) (keys : list string) :
  ∃ v, get d keys = Ok v ∧ Py.ne_empty_dict v = true.
Proof.
  revert d. induction keys as [|k keys IH]; intros d.
  - cbn [get]. destruct (Py.ne_empty_dict d) eqn:Hd; eauto.
  - cbn [get]. destruct d; cbn [Py.is_dict Py.dict_get bind]; eauto.
Qed.

(** ** The metadata descriptor *)

Lemma map_exc_labels (ps ls : list value) :
  map_exc (λ p, Py.getitem p "label") ps = Ok ls ↔ Forall2 has_label ps ls.
Proof.
  revert ls. induction ps as [|p ps IH]; intros ls; cbn [map_exc].
  - split; [intros [= <-]; constructor | by inversion 1].
  - split.
    + destruct (Py.getitem p "label") as [l|e] eqn:Hl; [|done]. cbn [bind].
      destruct (map_exc _ ps) as [ls'|e]; [|done]. cbn [bind]. intros [= <-].
      constructor; [|by apply IH].
      destruct p as [| | | | | |items]; try done. simpl in Hl.
      destruct (Py.lookup_key "label" items) eqn:Hk; [|done].
      exists items. by simplify_eq.
    + inversion 1 as [|? l ? ls' (items & -> & Hk) Hrest]; subst.
      simpl. rewrite Hk. cbn [bind].
      apply IH in Hrest as ->. done.
Qed.

(** The metadata loads exactly when [prompts.json] parses to a mapping with
    the keys [models], [prompts] and [target] whose prompts can be iterated
    and are all mappings with a [label]; the labels are taken in the order
    of the prompts. *)
Theorem load_meta_ok_iff (run_dir : string) (fs : gmap string file)
    (m : value) (ls : list value) (t : value) :
  load_meta run_dir fs = Ok (Metadata m ls t)
  ↔ ∃ items prompts ps,
      fs_json fs (meta_path run_dir) = Ok (VDict items)
      ∧ Py.lookup_key "models" items = Some m
      ∧ Py.lookup_key "prompts" items = Some prompts
      ∧ Py.iter prompts = Ok ps
      ∧ Forall2 has_label ps ls
      ∧ Py.lookup_key "target" items = Some t.
Proof.
  unfold load_meta. fold (meta_path run_dir). split.
  - destruct (fs_json fs _) as [[| | | | | |items]|e]; try done. cbn [bind Py.getitem].
    destruct (Py.lookup_key "models" items) as [m'|] eqn:Hm; [|done].
    destruct (Py.lookup_key "prompts" items) as [prompts|] eqn:Hp; [|done].
    cbn [bind]. destruct (Py.iter prompts) as [ps|e] eqn:Hps; [|done]. cbn [bind].
    destruct (map_exc _ ps) as [ls'|e] eqn:Hls; [|done]. cbn [bind].
    destruct (Py.lookup_key "target" items) as [t'|] eqn:Ht; [|done].
    intros [= -> -> ->]. exists items, prompts, ps.
    by rewrite <- map_exc_labels.
  - intros (items & prompts & ps & -> & Hm & Hp & Hps & Hls & Ht).
    cbn [bind Py.getitem]. rewrite Hm, Hp. cbn [bind]. rewrite Hps. cbn [bind].
    apply map_exc_labels in Hls as ->. cbn [bind]. by rewrite Ht.
Qed.

Lemma load_meta_ok_iff_witness :
  load_meta "run" example_fs = Ok (Metadata (VList [VStr "m"]) [VStr "a"] (VStr "t")).
Proof.
  apply load_meta_ok_iff.
  exists [("models", VList [VStr "m"]);
          ("prompts", VList [VDict [("label", VStr "a")]]);
          ("target", VStr "t")],
    (VList [VDict [("label", VStr "a")]]), [VDict [("label", VStr "a")]].
  repeat split; try reflexivity.
  constructor; [|constructor]. by exists [("label", VStr "a")].
Defined.

(** How the metadata load fails: with the exception of reading the file
    when it is absent or does not parse, with [TypeError] when it is not a
    mapping, with [KeyError] when [models] or [prompts] is missing, and
    with some exception whenever [target] is missing. *)
Theorem load_meta_errors (run_dir : string) (fs : gmap string file) :
  (∀ e, fs_json fs (meta_path run_dir) = Raise e → load_meta run_dir fs = Raise e)
  ∧ (∀ meta, fs_json fs (meta_path run_dir) = Ok meta → Py.is_dict meta = false →
       load_meta run_dir fs = Raise TypeError)
  ∧ (∀ items, fs_json fs (meta_path run_dir) = Ok (VDict items) →
       Py.lookup_key "models" items = None ∨ Py.lookup_key "prompts" items = None →
       load_meta run_dir fs = Raise KeyError)
  ∧ (∀ items, fs_json fs (meta_path run_dir) = Ok (VDict items) →
       Py.lookup_key "target" items = None →
       ∃ e, load_meta run_dir fs = Raise e).
Proof.
  unfold load_meta. fold (meta_path run_dir). repeat split.
  - by intros e ->.
  - intros meta -> Hd. by destruct meta.
  - intros items -> [H|H]; cbn [bind Py.getitem]; rewrite H; [done|].
    by destruct (Py.lookup_key "models" items).
  - intros items -> Ht. cbn [bind Py.getitem]. rewrite Ht.
    destruct (Py.lookup_key "models" items); [|by eauto].
    destruct (Py.lookup_key "prompts" items); [|by eauto]. cbn [bind].
    destruct (Py.iter _); [|by eauto]. cbn [bind].
    destruct (map_exc _ _); cbn [bind]; eauto.
Qed.

Lemma load_meta_errors_witness : load_meta "run" ∅ = Raise OSError.
Proof. apply (proj1 (load_meta_errors "run" ∅)). reflexivity. Defined.

(** ** When the summary is written *)




(** ** What the results hold *)

Lemma foldl_store_last (fs : gmap string file) (l : list string)
    (acc : gmap string value) (key : string) :
  key ≠ "prompts" →
  foldl (store fs) acc l !! key
  = match last (filter (λ f, result_name f = key) l) with
    | Some f => Some (loaded fs f)
    | None => acc !! key
    end.
Proof.
  intros Hkey. revert acc. induction l as [|f l IH]; intros acc; [done|].
  cbn [foldl]. rewrite IH, filter_cons.
  destruct (decide (result_name f = key)) as [Hf|Hf].
  - rewrite last_cons. destruct (last (filter _ l)); [done|].
    unfold store. rewrite Hf.
    destruct (String.eqb key "prompts") eqn:Heq;
      [by apply String.eqb_eq in Heq|].
    by rewrite lookup_insert_eq.
  - destruct (last (filter _ l)); [done|]. by apply store_skip.
Qed.

Lemma foldl_store_prompts (fs : gmap string file) (l : list string)
    (acc : gmap string value) :
  acc !! "prompts" = None → foldl (store fs) acc l !! "prompts" = None.
Proof.
  revert acc. induction l as [|f l IH]; intros acc Hacc; [done|].
  apply IH. unfold store.
  destruct (String.eqb (result_name f) "prompts") eqn:Heq; [done|].
  rewrite lookup_insert_ne; [done|]. intros Hf. by rewrite Hf in Heq.
Qed.

(** The results never hold the metadata descriptor. Under any other key
    they hold what the last file stored under that key gave, in the sorted
    order of the listing: its parsed content, or the empty record when it
    cannot be read or parsed; and nothing when no file is stored under the
    key. *)
Theorem results_last_file (fs : gmap string file) (ls : list string) :
  ∃ results,
    load_results fs ls = Ok results
    ∧ results !! "prompts" = None
    ∧ ∀ key, results !! key
             = if String.eqb key "prompts" then None
               else loaded fs <$> last (files_of key ls).
Proof.
  exists (foldl (store fs) ∅ (sorted ls)). split; [apply load_results_eq|].
  split; [by apply foldl_store_prompts|]. intros key.
  destruct (String.eqb key "prompts") eqn:Heq.
  - apply String.eqb_eq in Heq as ->. by apply foldl_store_prompts.
  - rewrite foldl_store_last by (intros ->; done). unfold files_of.
    by destruct (last _).
Qed.

(** ** File names and keys *)

Lemma ends_with_inv (suf s : string) :
  Text.ends_with suf s = true → ∃ a, s = a +:+ suf.
Proof.
  induction s as [|c s IH]; cbn [Text.ends_with]; intros H.
  - rewrite orb_false_r in H. apply String.eqb_eq in H as ->. by exists "".
  - apply orb_prop in H as [H|H].
    + apply String.eqb_eq in H as ->. by exists "".
    + destruct (IH H) as [a ->]. by exists (String c a).
Qed.

Lemma has_char_app (c : ascii) (a b : string) :
  Text.has_char c (a +:+ b) = Text.has_char c a || Text.has_char c b.
Proof.
  induction a as [|x a IH]; [done|].
  change (String x a +:+ b) with (String x (a +:+ b)). cbn [Text.has_char].
  rewrite IH. by destruct (Ascii.eqb x c).
Qed.

Lemma basename_no_slash (name : string) :
  Text.has_char "/" name = false → Path.basename name = name.
Proof.
  destruct name as [|c name]; [done|]. cbn [Text.has_char Path.basename].
  destruct (Ascii.eqb c "/"); [done|]. by intros ->.
Qed.

Lemma basename_after_slash (a name : string) :
  Text.has_char "/" name = false → Path.basename (a +:+ "/" +:+ name) = name.
Proof.
  intros Hname. induction a as [|c a IH].
  - change ("" +:+ "/" +:+ name) with (String "/" name).
    cbn [Path.basename]. by rewrite Hname.
  - change (String c a +:+ "/" +:+ name) with (String c (a +:+ "/" +:+ name)).
    cbn [Path.basename]. rewrite has_char_app.
    change (Text.has_char "/" ("/" +:+ name)) with true.
    by rewrite orb_true_r.
Qed.

Lemma app_assoc_string (a b c : string) : (a +:+ b) +:+ c = a +:+ b +:+ c.
Proof.
  induction a as [|x a IH]; [done|].
  change ((String x a +:+ b) +:+ c) with (String x ((a +:+ b) +:+ c)).
  by rewrite IH.
Qed.

Lemma basename_join (run_dir name : string) :
  Text.has_char "/" name = false → Path.basename (Path.join run_dir name) = name.
Proof.
  intros Hname. unfold Path.join, Path.dir_prefix.
  destruct run_dir as [|c run_dir]; [by apply basename_no_slash|].
  destruct (Text.ends_with "/" (String c run_dir)) eqn:Hend.
  - destruct (ends_with_inv _ _ Hend) as [a ->].
    rewrite app_assoc_string. by apply basename_after_slash.
  - rewrite app_assoc_string. by apply basename_after_slash.
Qed.

Lemma prefix_json_app (c : ascii) (k : string) :
  String.prefix ".json" (String c k) = false →
  String.prefix ".json" (String c k +:+ ".json") = false.
Proof.
  change (String c k +:+ ".json") with (String c (k +:+ ".json")).
  cbn [String.prefix]. destruct (ascii_dec "." c) as [_|]; [|done].
  destruct k as [|c1 k]; [intros _; reflexivity|].
  change (String c1 k +:+ ".json") with (String c1 (k +:+ ".json")).
  cbn [String.prefix]. destruct (ascii_dec "j" c1) as [<-|]; [|done].
  destruct k as [|c2 k]; [intros _; reflexivity|].
  change (String c2 k +:+ ".json") with (String c2 (k +:+ ".json")).
  cbn [String.prefix]. destruct (ascii_dec "s" c2) as [<-|]; [|done].
  destruct k as [|c3 k]; [intros _; reflexivity|].
  change (String c3 k +:+ ".json") with (String c3 (k +:+ ".json")).
  cbn [String.prefix]. destruct (ascii_dec "o" c3) as [<-|]; [|done].
  destruct k as [|c4 k]; [intros _; reflexivity|].
  change (String c4 k +:+ ".json") with (String c4 (k +:+ ".json")).
  cbn [String.prefix]. destruct (ascii_dec "n" c4); [|done]. by destruct k.
Qed.

Lemma replace_json_suffix (key : string) :
  occurs ".json" key = false → Text.replace ".json" "" (key +:+ ".json") = key.
Proof.
  unfold Text.replace. induction key as [|c key IH]; [done|].
  cbn [occurs]. intros [Hpre Hrest]%orb_false_elim.
  apply prefix_json_app in Hpre.
  change (String c key +:+ ".json") with (String c (key +:+ ".json")) in *.
  cbn [Text.replace_go]. rewrite Hpre. by rewrite IH.
Qed.

Lemma result_name_key (run_dir key : string) :
  Text.has_char "/" key = false → occurs ".json" key = false →
  result_name (Path.join run_dir (key +:+ ".json")) = key.
Proof.
  intros Hslash Hocc. unfold result_name.
  rewrite basename_join; [by apply replace_json_suffix|].
  by rewrite has_char_app, Hslash.
Qed.

Lemma glob_matches_key (run_dir key : string) :
  key ≠ "" → Text.has_char "/" key = false → Text.starts_with "." key = false →
  glob_matches run_dir (Path.join run_dir (key +:+ ".json")) = true.
Proof.
  intros Hne Hslash Hdot. unfold glob_matches, Path.join.
  rewrite strip_prefix_app, has_char_app, Hslash, ends_with_app.
  destruct key as [|c key]; [done|].
  change (String c key +:+ ".json") with (String c (key +:+ ".json")).
  unfold Text.starts_with in *. cbn [String.prefix] in *.
  destruct (ascii_dec "." c); [|done]. by destruct key.
Qed.

(** Round trip between keys and file names: when the file [key.json] is
    in the run directory, every listing the glob returns has it, and the
    key the script computes for it is [key] again; this for every key
    that is not empty, has no slash, does not start with a dot and in
    which [.json] does not occur. *)
Theorem trial_file_key (run_dir : string) (fs : gmap string file)
    (ls : list string) (key : string) :
  glob_listing run_dir fs ls →
  key ≠ "" → Text.has_char "/" key = false → Text.starts_with "." key = false →
  occurs ".json" key = false →
  is_Some (fs !! Path.join run_dir (key +:+ ".json")) →
  Path.join run_dir (key +:+ ".json") ∈ ls
  ∧ result_name (Path.join run_dir (key +:+ ".json")) = key.
Proof.
  intros (_ & _ & Hls) Hne Hslash Hdot Hocc Hfile. split.
  - apply Hls. split; [done | by apply glob_matches_key].
  - by apply result_name_key.
Qed.

Lemma trial_file_key_witness :
  Path.join "run" ("01-a-m-with-mcp" +:+ ".json") ∈ example_ls
  ∧ result_name (Path.join "run" ("01-a-m-with-mcp" +:+ ".json")) = "01-a-m-with-mcp".
Proof.
  apply (trial_file_key "run" example_fs); try done.
  apply example_listing.
Defined.

(** A trial record reaches the table: when the file [key.json] of the run
    directory parses and no other file of the listing is stored under
    [key], the results hold its content under [key]. *)
Theorem trial_record_stored (run_dir : string) (fs : gmap string file)
    (ls : list string) (key : string) (v : value) :
  glob_listing run_dir fs ls →
  key ≠ "" → key ≠ "prompts" → Text.has_char "/" key = false →
  Text.starts_with "." key = false → occurs ".json" key = false →
  fs_json fs (Path.join run_dir (key +:+ ".json")) = Ok v →
  (∀ f, f ∈ ls → result_name f = key → f = Path.join run_dir (key +:+ ".json")) →
  ∃ results, load_results fs ls = Ok results ∧ results !! key = Some v.
Proof.
  intros (_ & _ & Hls) Hne Hprompts Hslash Hdot Hocc Hv Honly.
  exists (foldl (store fs) ∅ (sorted ls)). split; [apply load_results_eq|].
  rewrite foldl_store_last by done.
  set (p := Path.join run_dir (key +:+ ".json")) in *.
  assert (Hp : p ∈ filter (λ f, result_name f = key) (sorted ls)).
  { apply list_elem_of_filter. split; [by apply result_name_key|].
    apply elem_of_sorted, Hls. split; [|by apply glob_matches_key].
    unfold fs_json in Hv. by destruct (fs !! p). }
  destruct (last _) as [f|] eqn:Hlast.
  - apply last_Some_elem_of in Hlast.
    apply list_elem_of_filter in Hlast as [Hf Hin].
    rewrite elem_of_sorted in Hin. rewrite (Honly f Hin Hf). unfold loaded. by rewrite Hv.
  - apply last_None in Hlast. rewrite Hlast in Hp. by apply elem_of_nil in Hp.
Qed.

Lemma trial_record_stored_witness :
  ∃ results, load_results example_fs example_ls = Ok results
             ∧ results !! "01-a-m-with-mcp" = Some example_record.
Proof.
  apply (trial_record_stored "run"); try done.
  - apply example_listing.
  - intros f. unfold example_ls. rewrite !elem_of_cons, elem_of_nil.
    intros [->|[->|[]]]; [by vm_compute | done].
Defined.

(** ** The table and the charts read the same numbers *)

Lemma get_field (d : value) (k : string) : get d [k] = Ok (field d k).
Proof. unfold field. by destruct (get_total d [k]) as [v ->]. Qed.

Lemma metric_value_cost (d : value) :
  metric_value Cost d
  = let* x := Py.float (field d "total_cost_usd") in Ok (VFloat x).
Proof. unfold metric_value. by rewrite get_field. Qed.

Lemma metric_value_time (d : value) :
  metric_value Time d
  = let* x := Py.float (field d "duration_ms") in
    Ok (VFloat (F64.div x (F64.of_Z 1000))).
Proof.
  unfold metric_value. rewrite get_field. cbn [bind].
  by destruct (Py.float _).
Qed.

(** What a cell of the table shows is the value the charts average for the
    same record, formatted: the cost with four decimals after a dollar
    sign, the time with one decimal and an [s], the token total with
    thousands separators; the cell shows the sentinel where the chart has
    no value for the record, and for a token total that is not a number. *)
Theorem cells_show_chart_values (d : value) :
  fmt_cost (field d "total_cost_usd")
  = Ok match metric_value Cost d with
       | Ok (VFloat x) => "$" +:+ F64.format_f 4 x
       | _ => NA
       end
  ∧ fmt_time (field d "duration_ms")
    = Ok match metric_value Time d with
         | Ok (VFloat secs) => F64.format_f 1 secs +:+ "s"
         | _ => NA
         end
  ∧ fmt_tokens d
    = match metric_value Tokens d with
      | Ok total => try_except (Py.format_comma total) Exception (Ok NA)
      | Raise _ => Ok NA
      end.
Proof.
  split; [|split].
  - rewrite fmt_cost_float, metric_value_cost. by destruct (Py.float _).
  - rewrite fmt_time_float, metric_value_time. by destruct (Py.float _).
  - unfold fmt_tokens, metric_value.
    destruct (Py.dict_get d "usage" _) as [usage|e]; [|done]. cbn [bind].
    destruct usage as [| | | | | |items]; try done. cbn [Py.dict_get bind].
    destruct (Py.add _ _) as [t1|e]; [|done]. cbn [bind].
    destruct (Py.add t1 _) as [t2|e]; [|done]. cbn [bind].
    by destruct (Py.add t2 _).
Qed.

Lemma omap_fmap_ext {A B C : Type} (f : A → option B) (g : B → C)
    (h : A → option C) (l : list A) :
  (∀ x, h x = g <$> f x) → omap h l = map g (omap f l).
Proof.
  intros Hh. induction l as [|x l IH]; [done|]. cbn [omap list_omap].
  rewrite Hh. destruct (f x); cbn [fmap option_fmap option_map map]; by rewrite IH.
Qed.

(** The costs the cost chart averages for a model and a mode are the costs
    the table adds up in its total line for them, in the same order. *)
Theorem chart_costs_are_table_costs (results : gmap string value)
    (labels : list value) (model : value) (mode : string) :
  metric_values results labels model mode Cost
  = map VFloat (trial_costs results model mode (enumerate labels)).
Proof.
  unfold metric_values, trial_costs. apply omap_fmap_ext. intros entry.
  unfold trial. rewrite metric_value_cost, <- float_field_cost.
  by destruct (Py.float _).
Qed.

(** ** Without the plotting library *)

(** When matplotlib is not installed the run writes the same summary, draws
    no chart, and ends without an exception if it wrote the summary; if it
    did not, it ends with the exception that ends the run with matplotlib
    installed too. *)
Theorem without_matplotlib (run_dir : string) (fs : gmap string file)
    (ls : list string) (w : writer) :
  summary_md (main run_dir fs ls false w) = summary_md (main run_dir fs ls true w)
  ∧ chart_png (main run_dir fs ls false w) = None
  ∧ uncaught (main run_dir fs ls false w)
    = match summary_md (main run_dir fs ls false w) with
      | Some _ => None
      | None => uncaught (main run_dir fs ls true w)
      end.
Proof.
  unfold main. destruct (load_meta run_dir fs) as [meta|e]; [|done].
  destruct (let* results := _ in _) as [[results text]|e]; [|done].
  destruct (w _ text); [|done].
  change (charts false results meta) with (Ok (@None (list bars))).
  by destruct (charts true results meta).
Qed.

(** ** Composite keys *)

Lemma pretty_N_char_digit (x : N) : Text.is_digit (pretty_N_char x) = true.
Proof. unfold pretty_N_char. by repeat case_match. Qed.

Lemma pretty_N_go_digits (x : N) (s : string) :
  all_digits s = true → all_digits (pretty_N_go x s) = true.
Proof.
  revert s. induction (N.lt_wf_0 x) as [x _ IH]; intros s Hs.
  assert (x = 0 ∨ 0 < x)%N as [->|?] by lia; [by rewrite pretty_N_go_0|].
  rewrite pretty_N_go_step by done. apply IH; [by apply N.div_lt|].
  cbn [all_digits]. by rewrite pretty_N_char_digit.
Qed.

Lemma pretty_nat_digits (n : nat) : all_digits (pretty n) = true.
Proof.
  unfold pretty, pretty_nat, pretty, pretty_N.
  case_decide; [done|]. by apply pretty_N_go_digits.
Qed.

Lemma pretty_N_go_lead (x : N) (s : string) :
  (0 < x)%N → ∃ c r, pretty_N_go x s = String c r ∧ c ≠ "0"%char.
Proof.
  revert s. induction (N.lt_wf_0 x) as [x _ IH]; intros s Hx.
  rewrite pretty_N_go_step by done.
  destruct (N.eq_0_gt_0_cases (x `div` 10)) as [H0|Hpos].
  - rewrite H0, pretty_N_go_0. eexists _, _. split; [done|].
    assert (x < 10)%N by (apply N.div_small_iff in H0; lia).
    rewrite N.mod_small by done.
    assert (x = 1 ∨ x = 2 ∨ x = 3 ∨ x = 4 ∨ x = 5 ∨ x = 6
            ∨ x = 7 ∨ x = 8 ∨ x = 9)%N as Hx9 by lia.
    repeat (destruct Hx9 as [->|Hx9]; [done|]). by subst.
  - apply IH; [by apply N.div_lt | done].
Qed.

Lemma pretty_nat_shape (n : nat) :
  pretty n = "0" ∨ ∃ c r, pretty n = String c r ∧ c ≠ "0"%char.
Proof.
  unfold pretty, pretty_nat, pretty, pretty_N.
  case_decide; [by left|]. right. apply pretty_N_go_lead. lia.
Qed.

Lemma all_digits_app (a b : string) :
  all_digits (a +:+ b) = all_digits a && all_digits b.
Proof.
  induction a as [|c a IH]; [done|].
  change (String c a +:+ b) with (String c (a +:+ b)). cbn [all_digits].
  by rewrite IH, andb_assoc.
Qed.

Lemma repeat_zero_digits (n : nat) : all_digits (Text.repeat_char "0" n) = true.
Proof. induction n as [|n IH]; [done|]. cbn [Text.repeat_char all_digits]. by rewrite IH. Qed.

Lemma format_02d_digits (n : nat) : all_digits (Py.format_02d n) = true.
Proof.
  unfold Py.format_02d, Text.zero_pad.
  by rewrite all_digits_app, repeat_zero_digits, pretty_nat_digits.
Qed.

Lemma format_02d_inj (n m : nat) : Py.format_02d n = Py.format_02d m → n = m.
Proof.
  unfold Py.format_02d. intros H. apply (inj pretty).
  destruct (pretty_nat_shape n) as [Hn|(c & r & Hn & Hc)],
    (pretty_nat_shape m) as [Hm|(c' & r' & Hm & Hc')];
    rewrite Hn, Hm in H |- *; [done|..].
  - destruct r' as [|c2 r']; injection H as H; congruence.
  - destruct r as [|c2 r]; injection H as H; congruence.
  - destruct r as [|c2 r], r' as [|c2' r']; injection H as H; congruence.
Qed.

Lemma digits_dash_inj (ds ds' x y : string) :
  all_digits ds = true → all_digits ds' = true →
  ds +:+ "-" +:+ x = ds' +:+ "-" +:+ y → ds = ds' ∧ x = y.
Proof.
  revert ds'. induction ds as [|c ds IH]; intros [|c' ds'] Hd Hd' H.
  - change (String "-" x = String "-" y) in H. by simplify_eq.
  - change (String "-" x = String c' (ds' +:+ "-" +:+ y)) in H. by simplify_eq.
  - change (String c (ds +:+ "-" +:+ x) = String "-" y) in H. by simplify_eq.
  - change (String c (ds +:+ "-" +:+ x) = String c' (ds' +:+ "-" +:+ y)) in H.
    injection H as -> H.
    apply andb_prop in Hd as [_ Hd]. apply andb_prop in Hd' as [_ Hd'].
    by destruct (IH ds' Hd Hd' H) as [-> ->].
Qed.

Lemma length_app_string (a b : string) :
  String.length (a +:+ b) = String.length a + String.length b.
Proof.
  induction a as [|c a IH]; [done|].
  change (String c a +:+ b) with (String c (a +:+ b)). cbn [String.length].
  by rewrite IH.
Qed.

Lemma app_inj_suffix (a c b d : string) :
  String.length b = String.length d → a +:+ b = c +:+ d → a = c ∧ b = d.
Proof.
  intros Hlen. revert c. induction a as [|x a IH]; intros [|y c] H.
  - done.
  - change ("" +:+ b) with b in H. subst b.
    change (String y c +:+ d) with (String y (c +:+ d)) in Hlen.
    cbn [String.length] in Hlen. rewrite length_app_string in Hlen. lia.
  - change ("" +:+ d) with d in H. subst d.
    change (String x a +:+ b) with (String x (a +:+ b)) in Hlen.
    cbn [String.length] in Hlen. rewrite length_app_string in Hlen. lia.
  - change (String x (a +:+ b) = String y (c +:+ d)) in H.
    injection H as -> H. by destruct (IH c H) as [-> ->].
Qed.

Lemma model_mode_inj (s s' mode mode' : string) :
  mode ∈ modes → mode' ∈ modes →
  s +:+ "-" +:+ mode = s' +:+ "-" +:+ mode' → s = s' ∧ mode = mode'.
Proof.
  unfold modes. rewrite !elem_of_cons, !elem_of_nil.
  intros [->|[->|[]]] [->|[->|[]]] H.
  - by apply app_inj_suffix in H as [-> _].
  - change ("-" +:+ "without-mcp") with ("-wi" +:+ "thout-mcp") in H.
    rewrite <- (app_assoc_string s' "-wi" "thout-mcp") in H.
    by apply app_inj_suffix in H as [_ H].
  - change ("-" +:+ "without-mcp") with ("-wi" +:+ "thout-mcp") in H.
    rewrite <- (app_assoc_string s "-wi" "thout-mcp") in H.
    by apply app_inj_suffix in H as [_ H].
  - by apply app_inj_suffix in H as [-> _].
Qed.

Lemma enumerate_from_ge {A : Type} (k : nat) (l : list A) (i : nat) (x : A) :
  (i, x) ∈ enumerate_from k l → k ≤ i.
Proof.
  revert k. induction l as [|y l IH]; intros k; cbn [enumerate_from].
  - by intros ?%elem_of_nil.
  - intros [[= -> ->]|H%IH]%elem_of_cons; lia.
Qed.

Lemma enumerate_from_functional {A : Type} (k : nat) (l : list A) (i : nat)
    (x y : A) :
  (i, x) ∈ enumerate_from k l → (i, y) ∈ enumerate_from k l → x = y.
Proof.
  revert k. induction l as [|z l IH]; intros k; cbn [enumerate_from].
  - by intros ?%elem_of_nil.
  - intros [[= -> ->]|Hx]%elem_of_cons [[= ->]|Hy]%elem_of_cons.
    + done.
    + apply enumerate_from_ge in Hy. lia.
    + apply enumerate_from_ge in Hx. lia.
    + by apply (IH (S k)).
Qed.

Lemma trial_key_inj (labels : list value) (i i' : nat) (l l' : value)
    (s s' mode mode' : string) :
  (i, l) ∈ enumerate labels → (i', l') ∈ enumerate labels →
  mode ∈ modes → mode' ∈ modes →
  trial_key i l (VStr s) mode = trial_key i' l' (VStr s') mode' →
  i = i' ∧ l = l' ∧ s = s' ∧ mode = mode'.
Proof.
  intros Hl Hl' Hm Hm'. unfold trial_key. cbn [Py.str]. intros H.
  apply digits_dash_inj in H as [Hi H]; [|apply format_02d_digits..].
  apply format_02d_inj in Hi. assert (i = i') as <- by lia.
  assert (l = l') as <- by (by eapply enumerate_from_functional).
  apply String.app_inj in H.
  change (String "-" (s +:+ "-" +:+ mode) = String "-" (s' +:+ "-" +:+ mode')) in H.
  injection H as H. by apply model_mode_inj in H as [-> ->].
Qed.

(** Two trials of a run are stored under the same composite key only if
    they are the same trial: the same prompt of the list, the same model
    name and the same mode. No table cell and no chart value reads the
    record of another trial. *)
Theorem trial_keys_distinct (labels : list value) (e e' : nat * value)
    (s s' mode mode' : string) :
  e ∈ enumerate labels → e' ∈ enumerate labels →
  mode ∈ modes → mode' ∈ modes →
  trial_key e.1 e.2 (VStr s) mode = trial_key e'.1 e'.2 (VStr s') mode'
  ↔ e = e' ∧ s = s' ∧ mode = mode'.
Proof.
  destruct e as [i l], e' as [i' l']. cbn [fst snd]. intros He He' Hm Hm'. split.
  - intros H. by destruct (trial_key_inj labels _ _ _ _ _ _ _ _ He He' Hm Hm' H)
      as (-> & -> & -> & ->).
  - by intros ([= -> ->] & -> & ->).
Qed.

Lemma trial_keys_distinct_witness :
  trial_key 0 (VStr "a-b") (VStr "m") "with-mcp"
  = trial_key 1 (VStr "a") (VStr "b-m") "without-mcp"
  ↔ (0, VStr "a-b") = (1, VStr "a") ∧ "m" = "b-m" ∧ "with-mcp" = "without-mcp".
Proof.
  apply (trial_keys_distinct [VStr "a-b"; VStr "a"] (0, VStr "a-b") (1, VStr "a"));
    by repeat constructor.
Defined.

(** Storing a record under the key of one trial changes the table row of
    that prompt in the table of that model only: the row of every other
    prompt, and every row of the table of another model, stays as it
    was. *)
Theorem record_changes_one_row (results : gmap string value)
    (labels : list value) (e0 e : nat * value) (s0 s mode0 : string)
    (v : value) :
  e0 ∈ enumerate labels → e ∈ enumerate labels → mode0 ∈ modes →
  (e, s) ≠ (e0, s0) →
  row (<[trial_key e0.1 e0.2 (VStr s0) mode0 := v]> results) (VStr s) e
  = row results (VStr s) e.
Proof.
  destruct e0 as [i0 l0], e as [i l]. cbn [fst snd]. intros He0 He Hm0 Hne.
  assert (∀ mode, mode ∈ modes →
            trial (<[trial_key i0 l0 (VStr s0) mode0 := v]> results) (VStr s) mode (i, l)
            = trial results (VStr s) mode (i, l)) as Htrial.
  { intros mode Hm. unfold trial, results_get. cbn [fst snd].
    rewrite lookup_insert_ne; [done|]. intros H.
    apply (trial_key_inj labels) in H as (-> & -> & -> & _); done. }
  unfold row. by rewrite !Htrial by (apply (bool_decide_unpack _); by vm_compute).
Qed.

Lemma record_changes_one_row_witness :
  row (<[trial_key 0 (VStr "a") (VStr "m") "with-mcp" := VDict []]> two_prompts_results)
      (VStr "m") (1, VStr "b")
  = row two_prompts_results (VStr "m") (1, VStr "b").
Proof.
  apply (record_changes_one_row _ [VStr "a"; VStr "b"] (0, VStr "a") (1, VStr "b"));
    [by repeat constructor.. | done].
Defined.

(** ** The shape of the summary *)

Lemma length_concat_map {A B : Type} (f : A → list B) (k : nat) (l : list A) :
  (∀ x, length (f x) = k) → length (concat (map f l)) = length l * k.
Proof.
  intros Hf. induction l as [|x l IH]; [done|].
  cbn [map concat length]. rewrite length_app, Hf, IH. lia.
Qed.

(** When the models are strings, the list of lines joined into
    [summary.md] has five header entries, for each model seven entries and
    one row per prompt, four separator entries, and for each model and
    prompt a block of fourteen entries: nothing is dropped and nothing
    else is added. *)
Theorem summary_line_count (run_dir : string) (fs : gmap string file)
    (results : gmap string value) (meta : metadata) (ss : list string) :
  Py.iter (models meta) = Ok (map VStr ss) →
  ∃ lines,
    summary_lines run_dir fs results meta = Ok lines
    ∧ length lines = 9 + length ss * (7 + 15 * length (labels meta)).
Proof.
  intros Hms. exists (report run_dir fs results meta ss).
  split; [by apply summary_lines_eq|]. unfold report.
  rewrite !length_app.
  rewrite (length_concat_map _ (7 + length (labels meta))).
  - rewrite (length_concat_map _ (length (labels meta) * 14)).
    + cbn [length]. lia.
    + intros s. rewrite (length_concat_map _ 14) by done.
      unfold enumerate. by rewrite length_enumerate_from.
  - intros s. unfold model_table. rewrite !length_app, length_map.
    unfold enumerate. rewrite length_enumerate_from. cbn [length table_header]. lia.
Qed.

Lemma summary_line_count_witness :
  ∃ lines,
    summary_lines "run" example_fs ∅ two_prompts_meta = Ok lines
    ∧ length lines = 9 + length ["m"] * (7 + 15 * length (labels two_prompts_meta)).
Proof. by apply summary_line_count. Defined.

Lemma concat_map_split {A B : Type} (f : A → list B) (x : A) (l : list A) :
  x ∈ l → ∃ before after, concat (map f l) = before ++ f x ++ after.
Proof.
  intros (l1 & l2 & ->)%list_elem_of_split.
  exists (concat (map f l1)), (concat (map f l2)).
  by rewrite map_app, concat_app.
Qed.

Lemma inside_app_l {A : Type} (p l x : list A) :
  (∃ b a, l = b ++ x ++ a) → ∃ b a, p ++ l = b ++ x ++ a.
Proof. intros (b & a & ->). exists (p ++ b), a. by rewrite <- app_assoc. Qed.

Lemma inside_app_r {A : Type} (l q x : list A) :
  (∃ b a, l = b ++ x ++ a) → ∃ b a, l ++ q = b ++ x ++ a.
Proof. intros (b & a & ->). exists b, (a ++ q). by rewrite <- !app_assoc. Qed.

(** The answer of every trial is in the summary, inside a [details] block
    that carries the tag of its mode: the text of the trial's [.txt] file
    without the white space around it, or the sentinel when the file is
    absent or cannot be read. *)
Theorem transcripts_shown (run_dir : string) (fs : gmap string file)
    (results : gmap string value) (meta : metadata) (ss : list string)
    (s : string) (entry : nat * value) (mode : string) :
  Py.iter (models meta) = Ok (map VStr ss) →
  s ∈ ss → entry ∈ enumerate (labels meta) → mode ∈ modes →
  ∃ before after,
    summary_lines run_dir fs results meta
    = Ok (before
            ++ ["<details><summary>"
                  +:+ (if String.eqb mode "with-mcp" then "WITH MCP" else "WITHOUT MCP")
                  +:+ "</summary>"; "";
                match fs_read fs (Path.join run_dir
                        (trial_key entry.1 entry.2 (VStr s) mode +:+ ".txt")) with
                | Ok text => Text.strip text
                | Raise _ => NA
                end;
                ""; "</details>"; ""]
            ++ after).
Proof.
  intros Hms Hs Hentry Hmode. rewrite (summary_lines_eq _ _ _ _ ss Hms).
  match goal with
  | |- ∃ before after, _ = Ok (before ++ ?x ++ after) =>
      cut (∃ b a, report run_dir fs results meta ss = b ++ x ++ a);
        [intros (b & a & ->); by exists b, a|]
  end.
  unfold report. do 3 apply inside_app_l.
  destruct (concat_map_split
              (λ s, concat (map (answer_block run_dir fs s) (enumerate (labels meta))))
              s ss Hs) as (b1 & a1 & ->).
  apply inside_app_l, inside_app_r.
  destruct (concat_map_split (answer_block run_dir fs s) entry _ Hentry)
    as (b2 & a2 & ->).
  apply inside_app_l, inside_app_r.
  unfold answer_block. apply inside_app_l.
  revert Hmode. unfold modes. rewrite !elem_of_cons, elem_of_nil.
  intros [->|[->|[]]].
  - apply inside_app_r. exists [], []. by rewrite app_nil_r.
  - apply inside_app_l. exists [], []. by rewrite app_nil_r.
Qed.

Lemma transcripts_shown_witness :
  ∃ before after,
    summary_lines "run" example_fs ∅ two_prompts_meta
    = Ok (before
            ++ ["<details><summary>"
                  +:+ (if String.eqb "with-mcp" "with-mcp" then "WITH MCP" else "WITHOUT MCP")
                  +:+ "</summary>"; "";
                match fs_read example_fs (Path.join "run"
                        (trial_key (0, VStr "a").1 (0, VStr "a").2 (VStr "m") "with-mcp"
                           +:+ ".txt")) with
                | Ok text => Text.strip text
                | Raise _ => NA
                end;
                ""; "</details>"; ""]
            ++ after).
Proof.
  apply (transcripts_shown "run" example_fs ∅ two_prompts_meta ["m"] "m" (0, VStr "a"));
    by repeat constructor.
Defined.

(** ** Sub-counts that are strings *)

Lemma add_not_import (a b : value) (e : exn) :
  Py.add a b = Raise e → is_ImportError e = false.
Proof.
  unfold Py.add, Py.to_float, Py.float_of_int, bind.
  intros H. repeat case_match; by simplify_eq.
Qed.

Lemma truediv_not_import (a b : value) (e : exn) :
  Py.truediv a b = Raise e → is_ImportError e = false.
Proof.
  unfold Py.truediv, Py.int_truediv, Py.to_float, Py.float_of_int, bind.
  intros H. repeat case_match; by simplify_eq.
Qed.

Lemma sum_not_import (vals : list value) (acc : value) (e : exn) :
  for_each vals Py.add acc = Raise e → is_ImportError e = false.
Proof.
  revert acc. induction vals as [|x vals IH]; intros acc; cbn [for_each]; [done|].
  destruct (Py.add acc x) as [r|e'] eqn:Hadd; cbn [bind].
  - apply IH.
  - intros [= <-]. by apply add_not_import in Hadd.
Qed.

Lemma safe_avg_not_import (vals : list value) (e : exn) :
  safe_avg vals = Raise e → is_ImportError e = false.
Proof.
  destruct vals as [|x vals]; [done|]. unfold safe_avg, Py.sum.
  destruct (for_each _ _ _) as [r|e'] eqn:Hsum; cbn [bind].
  - apply truediv_not_import.
  - intros [= <-]. by apply sum_not_import in Hsum.
Qed.

Lemma add_number (a b r : value) :
  is_Some (Py.as_number a) → Py.add a b = Ok r → is_Some (Py.as_number r).
Proof.
  unfold Py.add, Py.to_float, Py.float_of_int, bind.
  intros Ha H. repeat case_match; simplify_eq; try done; by destruct Ha.
Qed.

Lemma add_number_text (a : value) (s : string) :
  is_Some (Py.as_number a) → Py.add a (VStr s) = Raise TypeError.
Proof. intros [n Ha]. unfold Py.add. rewrite Ha. by destruct a, n. Qed.

Lemma sum_with_text (vals : list value) (acc : value) (s : string) :
  is_Some (Py.as_number acc) → VStr s ∈ vals →
  ∃ e, for_each vals Py.add acc = Raise e.
Proof.
  revert acc. induction vals as [|x vals IH]; intros acc Hacc Hs.
  - by apply elem_of_nil in Hs.
  - cbn [for_each]. apply elem_of_cons in Hs as [<-|Hs].
    + rewrite add_number_text by done. by eexists.
    + destruct (Py.add acc x) as [r|e] eqn:Hadd; cbn [bind]; [|by eexists].
      apply IH; [|done]. by apply (add_number acc x).
Qed.

Lemma safe_avg_with_text (vals : list value) (s : string) :
  VStr s ∈ vals → ∃ e, safe_avg vals = Raise e.
Proof.
  intros Hs. destruct vals as [|x vals]; [by apply elem_of_nil in Hs|].
  unfold safe_avg, Py.sum.
  destruct (sum_with_text (x :: vals) (VInt 0) s) as [e ->]; [by eexists | done|].
  by eexists.
Qed.

Lemma map_exc_raises {A B : Type} (f : A → exc B) (l : list A) (x : A) :
  x ∈ l → (∃ e, f x = Raise e) → ∃ e, map_exc f l = Raise e.
Proof.
  intros Hx Hf. induction l as [|y l IH]; [by apply elem_of_nil in Hx|].
  cbn [map_exc]. apply elem_of_cons in Hx as [<-|Hx].
  - destruct Hf as [e ->]. by eexists.
  - destruct (f y); cbn [bind]; [|by eexists].
    destruct (IH Hx) as [e ->]. by eexists.
Qed.

Lemma map_exc_not_import {A B : Type} (f : A → exc B) (l : list A) (e : exn) :
  (∀ x e', f x = Raise e' → is_ImportError e' = false) →
  map_exc f l = Raise e → is_ImportError e = false.
Proof.
  intros Hf. induction l as [|y l IH]; [done|]. cbn [map_exc].
  destruct (f y) as [r|e'] eqn:Hy; cbn [bind].
  - destruct (map_exc f l); cbn [bind]; [done|]. intros [= <-]. by apply IH.
  - intros [= <-]. by apply (Hf y).
Qed.

Lemma metric_bars_not_import (results : gmap string value) (labels : list value)
    (ms : list value) (config : string * metric) (e : exn) :
  metric_bars results labels ms config = Raise e → is_ImportError e = false.
Proof.
  unfold metric_bars.
  destruct (map_exc _ ms) as [mcp|e'] eqn:Hmcp; cbn [bind].
  - clear Hmcp.
    destruct (map_exc _ ms) as [nomcp|e'] eqn:Hnomcp; cbn [bind]; [done|].
    intros [= <-]. revert Hnomcp. apply map_exc_not_import.
    intros model e0. apply safe_avg_not_import.
  - intros [= <-]. revert Hmcp. apply map_exc_not_import.
    intros model e0. apply safe_avg_not_import.
Qed.

Lemma text_counts_total (items u : list (string * value)) (s1 s2 s3 s4 : string) :
  Py.lookup_key "usage" items = Some (VDict u) →
  Py.lookup_key "input_tokens" u = Some (VStr s1) →
  Py.lookup_key "cache_read_input_tokens" u = Some (VStr s2) →
  Py.lookup_key "cache_creation_input_tokens" u = Some (VStr s3) →
  Py.lookup_key "output_tokens" u = Some (VStr s4) →
  metric_value Tokens (VDict items) = Ok (VStr (((s1 +:+ s2) +:+ s3) +:+ s4)).
Proof.
  intros Hu H1 H2 H3 H4. unfold metric_value, Py.dict_get.
  rewrite Hu. cbn [default from_option id bind]. by rewrite H1, H2, H3, H4.
Qed.

Lemma fmt_tokens_text (items u : list (string * value)) (s1 s2 s3 s4 : string) :
  Py.lookup_key "usage" items = Some (VDict u) →
  Py.lookup_key "input_tokens" u = Some (VStr s1) →
  Py.lookup_key "cache_read_input_tokens" u = Some (VStr s2) →
  Py.lookup_key "cache_creation_input_tokens" u = Some (VStr s3) →
  Py.lookup_key "output_tokens" u = Some (VStr s4) →
  fmt_tokens (VDict items) = Ok NA.
Proof.
  intros Hu H1 H2 H3 H4. unfold fmt_tokens, Py.dict_get.
  rewrite Hu. cbn [default from_option id bind]. by rewrite H1, H2, H3, H4.
Qed.

Lemma tokens_bars_raise (results : gmap string value) (labels : list value)
    (ms : list value) (title : string) (model : value) (entry : nat * value)
    (mode s : string) :
  model ∈ ms → entry ∈ enumerate labels → mode ∈ modes →
  metric_value Tokens (trial results model mode entry) = Ok (VStr s) →
  ∃ e, metric_bars results labels ms (title, Tokens) = Raise e.
Proof.
  intros Hmodel Hentry Hmode Hv.
  assert (VStr s ∈ metric_values results labels model mode Tokens) as Hin.
  { unfold metric_values. apply list_elem_of_omap. exists entry.
    split; [done|]. by rewrite Hv. }
  apply safe_avg_with_text in Hin.
  unfold metric_bars. cbn [snd fst]. revert Hmode Hin. unfold modes.
  rewrite !elem_of_cons, elem_of_nil. intros [->|[->|[]]] Hin.
  - destruct (map_exc_raises
                (λ model, safe_avg (metric_values results labels model "with-mcp" Tokens))
                ms model Hmodel Hin) as [e ->].
    by eexists.
  - destruct (map_exc _ ms); cbn [bind]; [|by eexists].
    destruct (map_exc_raises
                (λ model, safe_avg (metric_values results labels model "without-mcp" Tokens))
                ms model Hmodel Hin) as [e ->].
    by eexists.
Qed.

(** A trial record whose four usage sub-counts are all strings shows the
    sentinel in its token cell, and ends the chart stage: with the
    plotting library present and [summary.md] written, no chart is drawn
    and the run ends with an exception that [except ImportError] does not
    catch (the [TypeError] of [sum] on the joined string, unless the
    averages of an earlier bar raised already). *)
Theorem text_counts_end_the_chart (run_dir : string) (fs : gmap string file)
    (ls : list string) (w : writer) (meta : metadata)
    (results : gmap string value) (ms : list value) (model : value)
    (entry : nat * value) (mode : string) (items u : list (string * value))
    (s1 s2 s3 s4 : string) :
  is_Some (summary_md (main run_dir fs ls true w)) →
  load_meta run_dir fs = Ok meta →
  load_results fs ls = Ok results →
  Py.iter (models meta) = Ok ms → model ∈ ms →
  entry ∈ enumerate (labels meta) → mode ∈ modes →
  results !! trial_key entry.1 entry.2 model mode = Some (VDict items) →
  Py.lookup_key "usage" items = Some (VDict u) →
  Py.lookup_key "input_tokens" u = Some (VStr s1) →
  Py.lookup_key "cache_read_input_tokens" u = Some (VStr s2) →
  Py.lookup_key "cache_creation_input_tokens" u = Some (VStr s3) →
  Py.lookup_key "output_tokens" u = Some (VStr s4) →
  fmt_tokens (VDict items) = Ok NA
  ∧ chart_png (main run_dir fs ls true w) = None
  ∧ ∃ e, uncaught (main run_dir fs ls true w) = Some e
         ∧ is_ImportError e = false.
Proof.
  intros Hwritten Hmeta Hresults Hms Hmodel Hentry Hmode Hrec Hu H1 H2 H3 H4.
  pose proof (text_counts_total items u s1 s2 s3 s4 Hu H1 H2 H3 H4) as Htotal.
  split.
  - by apply (fmt_tokens_text items u s1 s2 s3 s4).
  - assert (∃ e, charts true results meta = Raise e ∧ is_ImportError e = false)
      as (e & Hcharts & He).
    { unfold charts. rewrite Hms. cbn [bind]. rewrite collect_models_eq. cbn [bind].
      rewrite (map_exc_ext _ (metric_bars results (labels meta) ms))
        by (intros config _; apply chart_bars_eq).
      destruct (map_exc (metric_bars _ _ _) chart_configs) as [bs|e] eqn:Hbs.
      - exfalso. revert Hbs. unfold chart_configs. cbn [map_exc].
        destruct (tokens_bars_raise results (labels meta) ms "Tokens" model entry mode
                    (((s1 +:+ s2) +:+ s3) +:+ s4) Hmodel Hentry Hmode) as [e ->].
        { unfold trial, results_get. by rewrite Hrec. }
        by repeat (destruct (metric_bars _ _ _ _); cbn [bind]).
      - exists e. cbn [bind try_except].
        apply (map_exc_not_import _ _ _
                 (metric_bars_not_import results (labels meta) ms)) in Hbs as He.
        by rewrite He. }
    revert Hwritten. unfold main. rewrite Hmeta, Hresults. cbn [bind].
    destruct (summary_lines _ _ _ _); cbn [bind]; [|by intros []].
    destruct (w _ _); [|by intros []].
    rewrite Hcharts. cbn [chart_png uncaught]. eauto.
Qed.

Lemma text_counts_end_the_chart_witness :
  fmt_tokens text_counts_record = Ok NA
  ∧ chart_png (main "run" text_counts_fs example_ls true writes_all) = None
  ∧ ∃ e, uncaught (main "run" text_counts_fs example_ls true writes_all) = Some e
         ∧ is_ImportError e = false.
Proof.
  apply (text_counts_end_the_chart "run" text_counts_fs example_ls writes_all
           (Metadata (VList [VStr "m"]) [VStr "a"] (VStr "t")) text_counts_results
           [VStr "m"] (VStr "m") (0, VStr "a") "with-mcp"
           [("usage",
             VDict [("input_tokens", VStr "1"); ("cache_read_input_tokens", VStr "2");
                    ("cache_creation_input_tokens", VStr "3");
                    ("output_tokens", VStr "4")])]
           [("input_tokens", VStr "1"); ("cache_read_input_tokens", VStr "2");
            ("cache_creation_input_tokens", VStr "3"); ("output_tokens", VStr "4")]
           "1" "2" "3" "4");
    try reflexivity; by repeat constructor.
Defined.
